(** * Positive Insights: the entry form, the record model and the coordinator

    A shallow embedding of the activity-logging application:
    - [types.ts]: the enumerations and the [LogEntryData] / [LogEntry] records;
    - [components/LogEntryForm.tsx]: the form's state, its reset effect, its
      change handlers and [handleSubmit];
    - [App.tsx]: the coordinator's [saveLogEntry] and [handleDeleteEntry].

    JavaScript strings are sequences of UTF-16 code units, [Date] objects are
    time values (milliseconds since the epoch, or NaN), optional object
    fields are [option]s. *)

From stdpp Require Import base option list gmap strings.
From Stdlib Require Import ZArith NArith Ascii String Lia.
From Stdlib Require Import QArith Qround Sorted.

Local Open Scope Z_scope.

(** ** JavaScript strings *)

Module JS.

(** A string value: its UTF-16 code units. *)
Abbreviation jsstring := (list N).

(** A string literal of the source (ASCII only in this program). *)
Definition lit (s : string) : jsstring :=
  List.map N_of_ascii (list_ascii_of_string s).

(** Truthiness of a string: [s ? .. : ..], [s && ..], [s || ..]. *)
Definition truthy (s : jsstring) : bool :=
  match s with [] => false | _ :: _ => true end.

(** [o || d] for an optional string: [undefined] and [''] are falsy. *)
Definition orElse (o : option jsstring) (d : jsstring) : jsstring :=
  match o with
  | Some s => if truthy s then s else d
  | None => d
  end.

(** WhiteSpace and LineTerminator code units of ECMAScript: TAB, LF, VT,
    FF, CR, SP, NBSP, the [Zs] category and ZWNBSP, LS, PS. *)
Definition isWhiteSpace (c : N) : bool :=
  ((9 <=? c) && (c <=? 13) || (c =? 32) || (c =? 160) || (c =? 5760)
   || (8192 <=? c) && (c <=? 8202) || (c =? 8232) || (c =? 8233)
   || (c =? 8239) || (c =? 8287) || (c =? 12288) || (c =? 65279))%N.

Fixpoint trimStart (s : jsstring) : jsstring :=
  match s with
  | c :: s' => if isWhiteSpace c then trimStart s' else s
  | [] => []
  end.

Definition trimEnd (s : jsstring) : jsstring :=
  rev (trimStart (rev s)).

(** [String.prototype.trim]. *)
Definition trim (s : jsstring) : jsstring := trimEnd (trimStart s).

Definition isDigit (c : N) : bool := ((48 <=? c) && (c <=? 57))%N.

Definition digitValue (c : N) : Z := Z.of_N c - 48.

(** The value of a run of decimal digits, [None] when another code unit
    occurs. *)
Fixpoint digitsValue (acc : Z) (s : jsstring) : option Z :=
  match s with
  | [] => Some acc
  | c :: s' =>
      if isDigit c then digitsValue (10 * acc + digitValue c) s' else None
  end.

(** [Number(s)] on the strings this program feeds it, the pieces of a time
    input's value: surrounding white space is dropped, the empty string is
    [0], a run of decimal digits is its value; [None] is NaN.  Signs,
    fractions, exponents and radix prefixes do not occur in those pieces
    and are outside this model. *)
Definition Number (s : jsstring) : option Z := digitsValue 0 (trim s).

(** [s.split(sep)] for a one-code-unit separator, as the first piece and
    the list of the pieces after it. *)
Fixpoint splitOn (sep : N) (s : jsstring) : jsstring * list jsstring :=
  match s with
  | [] => ([], [])
  | c :: s' =>
      let '(hd, tl) := splitOn sep s' in
      if (c =? sep)%N then ([], hd :: tl) else (c :: hd, tl)
  end.

Definition split (sep : N) (s : jsstring) : list jsstring :=
  let '(hd, tl) := splitOn sep s in hd :: tl.

(** The decimal digits of [n], most significant first, at most [fuel]
    of them. *)
Fixpoint digitsOf (fuel : nat) (n : N) (acc : jsstring) : jsstring :=
  match fuel with
  | O => acc
  | S fuel' =>
      let acc' := (48 + n mod 10)%N :: acc in
      if (n / 10 =? 0)%N then acc' else digitsOf fuel' (n / 10)%N acc'
  end.

(** [n.toString()] for a natural number. *)
Definition toString (n : N) : jsstring := digitsOf (S (N.size_nat n)) n [].

(** [s.padStart(w, '0')]. *)
Definition padStart0 (w : nat) (s : jsstring) : jsstring :=
  replicate (w - List.length s)%nat 48%N ++ s.

End JS.

Import JS.

(** ** types.ts *)

Inductive LogType := Bathroom | Meal.
Inductive BathroomActivity := Pee | Poop | Both.
Inductive MealSubtype := Given | Stolen.
Inductive PoopSubtype := Small | Normal | Huge | Sick.

#[global] Instance LogType_eq_dec : EqDecision LogType.
Proof. solve_decision. Defined.
#[global] Instance BathroomActivity_eq_dec : EqDecision BathroomActivity.
Proof. solve_decision. Defined.
#[global] Instance MealSubtype_eq_dec : EqDecision MealSubtype.
Proof. solve_decision. Defined.
#[global] Instance PoopSubtype_eq_dec : EqDecision PoopSubtype.
Proof. solve_decision. Defined.

(** A [Date] object: its time value in milliseconds since the epoch (UTC),
    or the Invalid Date, whose time value is NaN. *)
Inductive Date := TimeValue (t : Z) | InvalidDate.

(** [LogEntryData]: every field but [type] is optional. *)
Module LogEntryData.
Record t := mk {
  type : LogType;
  activity : option BathroomActivity;
  poopSubtype : option PoopSubtype;
  notes : option jsstring;
  timestamp : option Date;
  mealSubtype : option MealSubtype;
  foodType : option jsstring
}.
End LogEntryData.

(** [LogEntry extends LogEntryData] with a mandatory [id] and [timestamp].
    Entries are built by [fetchLogEntries] from a Firestore timestamp or
    from [new Date()], so the time value of [timestamp] is a number. *)
Module LogEntry.
Record t := mk {
  id : jsstring;
  timestamp : Z;
  type : LogType;
  activity : option BathroomActivity;
  poopSubtype : option PoopSubtype;
  notes : option jsstring;
  mealSubtype : option MealSubtype;
  foodType : option jsstring
}.
End LogEntry.

(** ** The [Date] built-in (ECMAScript, Date objects)

    Time values are integers of milliseconds since 1970-01-01T00:00Z.  The
    local time zone adjustment [tza] (LocalTZA, in milliseconds, positive
    east of Greenwich) is the one of the environment the form runs in; it is
    taken constant, as in a zone without daylight saving changes. *)

Module DateModel.

Definition msPerDay : Z := 86400000.
Definition msPerHour : Z := 3600000.
Definition msPerMinute : Z := 60000.
Definition msPerSecond : Z := 1000.

Definition Day (t : Z) : Z := t / msPerDay.
Definition TimeWithinDay (t : Z) : Z := t mod msPerDay.
Definition HourFromTime (t : Z) : Z := (t / msPerHour) mod 24.
Definition MinFromTime (t : Z) : Z := (t / msPerMinute) mod 60.
Definition SecFromTime (t : Z) : Z := (t / msPerSecond) mod 60.
Definition msFromTime (t : Z) : Z := t mod msPerSecond.

Definition MakeTime (hour min sec ms : Z) : Z :=
  hour * msPerHour + min * msPerMinute + sec * msPerSecond + ms.

Definition MakeDate (day time : Z) : Z := day * msPerDay + time.

(** TimeClip: a time value is at most 8.64e15 ms away from the epoch. *)
Definition TimeClip (t : Z) : Date :=
  if Z.abs t <=? 8640000000000000 then TimeValue t else InvalidDate.

Definition LocalTime (tza t : Z) : Z := t + tza.
Definition UTC (tza t : Z) : Z := t - tza.

(** The proleptic Gregorian calendar: the day number of a civil date
    (MakeDay, months counted from 1) and the civil date of a day number
    (YearFromTime, MonthFromTime, DateFromTime). *)
Definition InLeapYear (y : Z) : bool :=
  (y mod 4 =? 0) && (negb (y mod 100 =? 0) || (y mod 400 =? 0)).

Definition DaysInMonth (y m : Z) : Z :=
  if m =? 2 then (if InLeapYear y then 29 else 28)
  else if (m =? 4) || (m =? 6) || (m =? 9) || (m =? 11) then 30
  else 31.

Definition MakeDay (year month date : Z) : Z :=
  let y := if month <=? 2 then year - 1 else year in
  let era := y / 400 in
  let yoe := y - era * 400 in
  let mp := (month + 9) mod 12 in
  let doy := (153 * mp + 2) / 5 + date - 1 in
  let doe := yoe * 365 + yoe / 4 - yoe / 100 + doy in
  era * 146097 + doe - 719468.

Definition CivilFromDay (day : Z) : Z * Z * Z :=
  let z := day + 719468 in
  let era := z / 146097 in
  let doe := z - era * 146097 in
  let yoe := (doe - doe / 1460 + doe / 36524 - doe / 146096) / 365 in
  let doy := doe - (365 * yoe + yoe / 4 - yoe / 100) in
  let mp := (5 * doy + 2) / 153 in
  let d := doy - (153 * mp + 2) / 5 + 1 in
  let m := if mp <? 10 then mp + 3 else mp - 9 in
  let y := yoe + era * 400 in
  (if m <=? 2 then y + 1 else y, m, d).

(** [getHours], [getMinutes], [getSeconds], [getMilliseconds]: fields of
    the local time. *)
Definition getHours (tza t : Z) : Z := HourFromTime (LocalTime tza t).
Definition getMinutes (tza t : Z) : Z := MinFromTime (LocalTime tza t).
Definition getSeconds (tza t : Z) : Z := SecFromTime (LocalTime tza t).
Definition getMilliseconds (tza t : Z) : Z := msFromTime (LocalTime tza t).

(** The setters replace one field of the local time and keep the local day;
    an Invalid Date stays invalid and a NaN argument ([None]) makes the date
    invalid. *)
Definition setHours (tza : Z) (d : Date) (hour : option Z) : Date :=
  match d, hour with
  | TimeValue t0, Some h =>
      let t := LocalTime tza t0 in
      TimeClip (UTC tza (MakeDate (Day t)
        (MakeTime h (MinFromTime t) (SecFromTime t) (msFromTime t))))
  | _, _ => InvalidDate
  end.

Definition setMinutes (tza : Z) (d : Date) (min : option Z) : Date :=
  match d, min with
  | TimeValue t0, Some m =>
      let t := LocalTime tza t0 in
      TimeClip (UTC tza (MakeDate (Day t)
        (MakeTime (HourFromTime t) m (SecFromTime t) (msFromTime t))))
  | _, _ => InvalidDate
  end.

Definition setSeconds (tza : Z) (d : Date) (sec : option Z) : Date :=
  match d, sec with
  | TimeValue t0, Some s =>
      let t := LocalTime tza t0 in
      TimeClip (UTC tza (MakeDate (Day t)
        (MakeTime (HourFromTime t) (MinFromTime t) s (msFromTime t))))
  | _, _ => InvalidDate
  end.

Definition setMilliseconds (tza : Z) (d : Date) (ms : option Z) : Date :=
  match d, ms with
  | TimeValue t0, Some ms' =>
      let t := LocalTime tza t0 in
      TimeClip (UTC tza (MakeDate (Day t)
        (MakeTime (HourFromTime t) (MinFromTime t) (SecFromTime t) ms')))
  | _, _ => InvalidDate
  end.

(** [new Date(s)] on the date-only form [YYYY-MM-DD] of the Date Time
    String Format, the value of a date input: it denotes midnight UTC of
    that day.  Any other string, a month or day out of range included, is
    left by ECMAScript to implementation-defined parsing and is modelled as
    the Invalid Date. *)
Definition newDate (s : jsstring) : Date :=
  match s with
  | [y1; y2; y3; y4; h1; m1; m2; h2; d1; d2] =>
      if ((h1 =? 45) && (h2 =? 45))%N then
        match digitsValue 0 [y1; y2; y3; y4],
              digitsValue 0 [m1; m2], digitsValue 0 [d1; d2] with
        | Some y, Some m, Some d =>
            if (1 <=? m) && (m <=? 12) && (1 <=? d) && (d <=? DaysInMonth y m)
            then TimeClip (MakeDate (MakeDay y m d) 0)
            else InvalidDate
        | _, _, _ => InvalidDate
        end
      else InvalidDate
  | _ => InvalidDate
  end.

Definition pad (w : nat) (n : Z) : jsstring :=
  padStart0 w (toString (Z.to_N n)).

(** The year of [toISOString]: four digits from 0 to 9999, a sign and six
    digits otherwise. *)
Definition isoYear (y : Z) : jsstring :=
  if (0 <=? y) && (y <=? 9999) then pad 4 y
  else (if 0 <=? y then 43%N else 45%N) :: pad 6 (Z.abs y).

(** [date.toISOString()], [YYYY-MM-DDTHH:mm:ss.sssZ] in UTC. *)
Definition toISOString (t : Z) : jsstring :=
  let '(y, m, d) := CivilFromDay (Day t) in
  isoYear y ++ lit "-" ++ pad 2 m ++ lit "-" ++ pad 2 d ++ lit "T"
    ++ pad 2 (HourFromTime t) ++ lit ":" ++ pad 2 (MinFromTime t) ++ lit ":"
    ++ pad 2 (SecFromTime t) ++ lit "." ++ pad 3 (msFromTime t) ++ lit "Z".

(** A check of [P] on the [count] days from [start] on. *)
Definition allDays (start : Z) (count : N) (P : Z -> bool) : bool :=
  fst (N.iter count (fun st => (fst st && P (snd st), snd st + 1))
         (true, start)).

(** The civil date of [day] is a date of the calendar, and [day] is its
    day number. *)
Definition civilAgrees (day : Z) : bool :=
  let '(y, m, d) := CivilFromDay day in
  (MakeDay y m d =? day) && (1 <=? m) && (m <=? 12) && (1 <=? d)
  && (d <=? DaysInMonth y m).

(** The date part of [toISOString], from the day number. *)
Definition isoDate (day : Z) : jsstring :=
  let '(y, m, d) := CivilFromDay day in
  isoYear y ++ lit "-" ++ pad 2 m ++ lit "-" ++ pad 2 d.

(** [pad w n] is [w] digits that read back as [n]. *)
Definition padReads (w : nat) (n : Z) : bool :=
  bool_decide (List.length (pad w n) = w)
  && bool_decide (digitsValue 0 (pad w n) = Some n).

(** The pieces of [HH:MM] read back as the hour and the minute. *)
Definition timeReads (h m : Z) : bool :=
  bool_decide
    (Number <$> split 58 (pad 2 h ++ lit ":" ++ pad 2 m) = [Some h; Some m]).

End DateModel.

Import DateModel.

(** ** components/LogEntryForm.tsx *)

Module LogEntryForm.

(** [date.toISOString().split('T')[0]] *)
Definition formatDateForInput (date : Z) : jsstring :=
  hd [] (split 84 (toISOString date)).

Definition formatTimeForInput (tza : Z) (date : Z) : jsstring :=
  let hours := padStart0 2 (toString (Z.to_N (getHours tza date))) in
  let minutes := padStart0 2 (toString (Z.to_N (getMinutes tza date))) in
  hours ++ lit ":" ++ minutes.

(** The eight [useState] cells of the component. *)
Record State := mkState {
  entryType : LogType;
  bathroomActivity : BathroomActivity;
  poopSubtype : PoopSubtype;
  mealNotes : jsstring;
  editDate : jsstring;
  editTime : jsstring;
  mealSubtype : MealSubtype;
  foodType : jsstring
}.

Definition setEntryType (v : LogType) (s : State) : State :=
  mkState v (bathroomActivity s) (poopSubtype s) (mealNotes s) (editDate s)
    (editTime s) (mealSubtype s) (foodType s).
Definition setBathroomActivity (v : BathroomActivity) (s : State) : State :=
  mkState (entryType s) v (poopSubtype s) (mealNotes s) (editDate s)
    (editTime s) (mealSubtype s) (foodType s).
Definition setPoopSubtype (v : PoopSubtype) (s : State) : State :=
  mkState (entryType s) (bathroomActivity s) v (mealNotes s) (editDate s)
    (editTime s) (mealSubtype s) (foodType s).
Definition setMealNotes (v : jsstring) (s : State) : State :=
  mkState (entryType s) (bathroomActivity s) (poopSubtype s) v (editDate s)
    (editTime s) (mealSubtype s) (foodType s).
Definition setEditDate (v : jsstring) (s : State) : State :=
  mkState (entryType s) (bathroomActivity s) (poopSubtype s) (mealNotes s) v
    (editTime s) (mealSubtype s) (foodType s).
Definition setEditTime (v : jsstring) (s : State) : State :=
  mkState (entryType s) (bathroomActivity s) (poopSubtype s) (mealNotes s)
    (editDate s) v (mealSubtype s) (foodType s).
Definition setMealSubtype (v : MealSubtype) (s : State) : State :=
  mkState (entryType s) (bathroomActivity s) (poopSubtype s) (mealNotes s)
    (editDate s) (editTime s) v (foodType s).
Definition setFoodType (v : jsstring) (s : State) : State :=
  mkState (entryType s) (bathroomActivity s) (poopSubtype s) (mealNotes s)
    (editDate s) (editTime s) (mealSubtype s) v.

(** A sequence of state updates, applied in source order. *)
Definition batch (updates : list (State -> State)) (s : State) : State :=
  fold_left (fun acc f => f acc) updates s.

(** The initial values given to [useState]. *)
Definition initialState : State :=
  mkState Bathroom Pee Normal [] [] [] Given (lit "Kibble").

(** The effect run whenever [editingEntry] changes. *)
Definition resetEffect (tza : Z) (editingEntry : option LogEntry.t)
    (s : State) : State :=
  match editingEntry with
  | Some e =>
      batch
        ([setEntryType (LogEntry.type e)] ++
         match LogEntry.type e with
         | Bathroom =>
             [setBathroomActivity (default Pee (LogEntry.activity e));
              setPoopSubtype (default Normal (LogEntry.poopSubtype e));
              setMealNotes [];
              setMealSubtype Given;
              setFoodType (lit "Kibble")]
         | Meal =>
             [setMealNotes (orElse (LogEntry.notes e) []);
              setMealSubtype (default Given (LogEntry.mealSubtype e));
              setFoodType (orElse (LogEntry.foodType e) (lit "Kibble"));
              setBathroomActivity Pee;
              setPoopSubtype Normal]
         end ++
         [setEditDate (formatDateForInput (LogEntry.timestamp e));
          setEditTime (formatTimeForInput tza (LogEntry.timestamp e))]) s
  | None =>
      batch
        [setEntryType Bathroom;
         setBathroomActivity Pee;
         setPoopSubtype Normal;
         setMealNotes [];
         setEditDate [];
         setEditTime [];
         setMealSubtype Given;
         setFoodType (lit "Kibble")] s
  end.

(** The form as mounted for [editingEntry]: the initial cells, then the
    effect. *)
Definition init (tza : Z) (editingEntry : option LogEntry.t) : State :=
  resetEffect tza editingEntry initialState.

Definition handleEntryTypeChange (newType : LogType) (s : State) : State :=
  batch
    ([setEntryType newType] ++
     match newType with
     | Bathroom =>
         [setMealNotes [];
          setMealSubtype Given;
          setFoodType (lit "Kibble");
          setPoopSubtype Normal]
     | Meal =>
         [setBathroomActivity Pee;
          setPoopSubtype Normal]
     end) s.

Definition handleBathroomActivityChange (newActivity : BathroomActivity)
    (s : State) : State :=
  batch
    ([setBathroomActivity newActivity] ++
     match newActivity with
     | Pee => [setPoopSubtype Normal]
     | _ => []
     end) s.

(** What the user can do to the form between two submissions: each
    constructor is one [onChange] handler of the rendered inputs. *)
Inductive Event :=
| EntryTypeChange (newType : LogType)
| BathroomActivityChange (newActivity : BathroomActivity)
| PoopSubtypeChange (subType : PoopSubtype)
| MealSubtypeChange (subType : MealSubtype)
| FoodTypeChange (value : jsstring)
| MealNotesChange (value : jsstring)
| EditDateChange (value : jsstring)
| EditTimeChange (value : jsstring).

Definition handle (s : State) (ev : Event) : State :=
  match ev with
  | EntryTypeChange t => handleEntryTypeChange t s
  | BathroomActivityChange a => handleBathroomActivityChange a s
  | PoopSubtypeChange p => setPoopSubtype p s
  | MealSubtypeChange m => setMealSubtype m s
  | FoodTypeChange v => setFoodType v s
  | MealNotesChange v => setMealNotes v s
  | EditDateChange v => setEditDate v s
  | EditTimeChange v => setEditTime v s
  end.

(** An editing session: the form mounted for [editingEntry], then the
    user's events in order. *)
Definition session (tza : Z) (editingEntry : option LogEntry.t)
    (evs : list Event) : State :=
  fold_left handle evs (init tza editingEntry).

(** Assignments to fields of [currentFormData]. *)
Definition withActivity (v : BathroomActivity) (d : LogEntryData.t) :=
  LogEntryData.mk (LogEntryData.type d) (Some v) (LogEntryData.poopSubtype d)
    (LogEntryData.notes d) (LogEntryData.timestamp d)
    (LogEntryData.mealSubtype d) (LogEntryData.foodType d).
Definition withPoopSubtype (v : PoopSubtype) (d : LogEntryData.t) :=
  LogEntryData.mk (LogEntryData.type d) (LogEntryData.activity d) (Some v)
    (LogEntryData.notes d) (LogEntryData.timestamp d)
    (LogEntryData.mealSubtype d) (LogEntryData.foodType d).
Definition withNotes (v : jsstring) (d : LogEntryData.t) :=
  LogEntryData.mk (LogEntryData.type d) (LogEntryData.activity d)
    (LogEntryData.poopSubtype d) (Some v) (LogEntryData.timestamp d)
    (LogEntryData.mealSubtype d) (LogEntryData.foodType d).
Definition withTimestamp (v : Date) (d : LogEntryData.t) :=
  LogEntryData.mk (LogEntryData.type d) (LogEntryData.activity d)
    (LogEntryData.poopSubtype d) (LogEntryData.notes d) (Some v)
    (LogEntryData.mealSubtype d) (LogEntryData.foodType d).
Definition withMealSubtype (v : MealSubtype) (d : LogEntryData.t) :=
  LogEntryData.mk (LogEntryData.type d) (LogEntryData.activity d)
    (LogEntryData.poopSubtype d) (LogEntryData.notes d)
    (LogEntryData.timestamp d) (Some v) (LogEntryData.foodType d).
Definition withFoodType (v : jsstring) (d : LogEntryData.t) :=
  LogEntryData.mk (LogEntryData.type d) (LogEntryData.activity d)
    (LogEntryData.poopSubtype d) (LogEntryData.notes d)
    (LogEntryData.timestamp d) (LogEntryData.mealSubtype d) (Some v).

(** The [newTimestamp] of [handleSubmit]: [new Date(editDate)], then the
    hour and minute of [editTime.split(':').map(Number)], then the seconds
    and milliseconds of the entry being edited.  A missing second piece is
    [undefined], which the setter converts to NaN. *)
Definition newTimestamp (tza : Z) (editDate editTime : jsstring)
    (original : Z) : Date :=
  let pieces := Number <$> split 58 editTime in
  let hours := default None (pieces !! 0%nat) in
  let minutes := default None (pieces !! 1%nat) in
  let d0 := newDate editDate in
  let d1 := setHours tza d0 hours in
  let d2 := setMinutes tza d1 minutes in
  let d3 := setSeconds tza d2 (Some (getSeconds tza original)) in
  setMilliseconds tza d3 (Some (getMilliseconds tza original)).

(** [handleSubmit]: the two arguments it passes to [onSaveEntry]. *)
Definition handleSubmit (tza : Z) (editingEntry : option LogEntry.t)
    (s : State) : LogEntryData.t * option jsstring :=
  let currentFormData :=
    LogEntryData.mk (entryType s) None None None None None None in
  let currentFormData :=
    match entryType s with
    | Bathroom =>
        let d := withActivity (bathroomActivity s) currentFormData in
        match bathroomActivity s with
        | Poop | Both => withPoopSubtype (poopSubtype s) d
        | Pee => d
        end
    | Meal =>
        let d := withMealSubtype (mealSubtype s) currentFormData in
        let d :=
          withFoodType
            (if bool_decide (trim (foodType s) = [])
             then lit "Kibble" else trim (foodType s)) d in
        withNotes (trim (mealNotes s)) d
    end in
  let currentFormData :=
    match editingEntry with
    | Some e =>
        if truthy (editDate s) && truthy (editTime s) then
          withTimestamp
            (newTimestamp tza (editDate s) (editTime s)
               (LogEntry.timestamp e)) currentFormData
        else currentFormData
    | None => currentFormData
    end in
  (currentFormData, LogEntry.id <$> editingEntry).

(** The payload alone. *)
Definition payload (tza : Z) (editingEntry : option LogEntry.t)
    (s : State) : LogEntryData.t :=
  fst (handleSubmit tza editingEntry s).

(** The conditions of the component's JSX: the date and time inputs are
    rendered for [editingEntry &&], the bathroom radios for
    [entryType === LogType.Bathroom &&], the poop subtype radios inside them
    for [bathroomActivity === Poop || bathroomActivity === Both], the meal
    inputs for [entryType === LogType.Meal &&]. *)
Definition rendersLogTime (editingEntry : option LogEntry.t) : bool :=
  bool_decide (is_Some editingEntry).

Definition rendersBathroomDetails (s : State) : bool :=
  bool_decide (entryType s = Bathroom).

Definition rendersPoopType (s : State) : bool :=
  rendersBathroomDetails s
  && (bool_decide (bathroomActivity s = Poop)
      || bool_decide (bathroomActivity s = Both)).

Definition rendersMealDetails (s : State) : bool :=
  bool_decide (entryType s = Meal).

(** An event can only come from an input that is rendered. *)
Definition enabled (editingEntry : option LogEntry.t) (s : State)
    (ev : Event) : bool :=
  match ev with
  | EntryTypeChange _ => true
  | BathroomActivityChange _ => rendersBathroomDetails s
  | PoopSubtypeChange _ => rendersPoopType s
  | MealSubtypeChange _ | FoodTypeChange _ | MealNotesChange _ =>
      rendersMealDetails s
  | EditDateChange _ | EditTimeChange _ => rendersLogTime editingEntry
  end.

(** Every event of the sequence comes from an input rendered in the state
    it reaches. *)
Fixpoint allEnabled (editingEntry : option LogEntry.t) (s : State)
    (evs : list Event) : bool :=
  match evs with
  | [] => true
  | ev :: evs' =>
      enabled editingEntry s ev && allEnabled editingEntry (handle s ev) evs'
  end.

End LogEntryForm.

(** ** components/LogItem.tsx *)

Module LogItem.

(** The string values of the enumeration [PoopSubtype]. *)
Definition poopSubtypeValue (p : PoopSubtype) : jsstring :=
  match p with
  | Small => lit "SMALL"
  | Normal => lit "NORMAL"
  | Huge => lit "HUGE"
  | Sick => lit "SICK"
  end.

(** [s.toLowerCase()] on the Latin capital letters, all that the
    enumeration values contain. *)
Definition toLowerCase (s : jsstring) : jsstring :=
  (fun c => if ((65 <=? c) && (c <=? 90))%N then (c + 32)%N else c) <$> s.

(** [v.charAt(0) + v.slice(1).toLowerCase()] *)
Definition capitalized (v : jsstring) : jsstring :=
  take 1 v ++ toLowerCase (drop 1 v).

(** [ActivityIcon]: the [aria-label] of the icon. *)
Definition ActivityIcon (type : LogType)
    (activity : option BathroomActivity) : jsstring :=
  match type with
  | Meal => lit "Meal"
  | Bathroom =>
      match activity with
      | Some Pee => lit "Pee"
      | Some Poop => lit "Poop"
      | Some Both => lit "Pee and Poop"
      | None => lit "Bathroom"
      end
  end.

(** [ActivityTitle]: the text of the title. *)
Definition ActivityTitle (entry : LogEntry.t) : jsstring :=
  match LogEntry.type entry with
  | Meal =>
      let mealDesc := lit "Meal" in
      match LogEntry.mealSubtype entry with
      | Some sub =>
          let mealDesc :=
            mealDesc ++ lit " (" ++
            (match sub with Given => lit "Given" | Stolen => lit "Stolen" end)
          in
          let mealDesc :=
            if truthy (default [] (LogEntry.foodType entry))
            then mealDesc ++ lit ": " ++ default [] (LogEntry.foodType entry)
            else mealDesc in
          mealDesc ++ lit ")"
      | None =>
          if truthy (default [] (LogEntry.foodType entry))
          then mealDesc ++ lit " (" ++ default [] (LogEntry.foodType entry)
               ++ lit ")"
          else mealDesc
      end
  | Bathroom =>
      match LogEntry.activity entry with
      | Some Pee => lit "Pee Break"
      | Some Poop =>
          let bathroomDesc := lit "Poop Break" in
          match LogEntry.poopSubtype entry with
          | Some p =>
              bathroomDesc ++ lit " (" ++ capitalized (poopSubtypeValue p)
              ++ lit ")"
          | None => bathroomDesc
          end
      | Some Both =>
          let bathroomDesc := lit "Pee & Poop Break" in
          match LogEntry.poopSubtype entry with
          | Some p =>
              bathroomDesc ++ lit " (Poop: "
              ++ capitalized (poopSubtypeValue p) ++ lit ")"
          | None => bathroomDesc
          end
      | None => lit "Bathroom Break"
      end
  end.

(** The two optional paragraphs under the title:
    [entry.type === LogType.Meal && entry.notes && ...] and
    [entry.type === LogType.Bathroom && !entry.activity && ...]. *)
Definition notesLine (entry : LogEntry.t) : option jsstring :=
  match LogEntry.type entry, LogEntry.notes entry with
  | Meal, Some n => if truthy n then Some (lit "Notes: " ++ n) else None
  | _, _ => None
  end.

Definition generalLine (entry : LogEntry.t) : option jsstring :=
  match LogEntry.type entry, LogEntry.activity entry with
  | Bathroom, None => Some (lit "General bathroom break.")
  | _, _ => None
  end.

End LogItem.

(** ** components/LogList.tsx *)

Module LogList.

(** What the component returns: the message for an empty log, or the
    section with one [LogItem] per entry. *)
Inductive Rendered :=
| NoActivities
| ActivityLog (items : list LogEntry.t).

Definition LogList (entries : list LogEntry.t) (isLoading : bool)
    : Rendered :=
  if negb isLoading && bool_decide (List.length entries = 0%nat)
  then NoActivities
  else ActivityLog entries.

End LogList.

(** ** App.tsx: the coordinator *)

Module App.

(** The value stored under [timestamp] in [dataToSave]:
    [Timestamp.fromDate(d)] or the [serverTimestamp()] sentinel. *)
Inductive TimestampField := FromDate (d : Date) | ServerTimestamp.

(** [dataToSave], the document handed to Firestore.  A key deleted from
    it, or never set, is [None]. *)
Record DocumentData := mkData {
  type : LogType;
  activity : option BathroomActivity;
  poopSubtype : option PoopSubtype;
  notes : option jsstring;
  timestamp : option TimestampField;
  mealSubtype : option MealSubtype;
  foodType : option jsstring
}.

Definition withTimestamp (v : option TimestampField) (d : DocumentData) :=
  mkData (type d) (activity d) (poopSubtype d) (notes d) v (mealSubtype d)
    (foodType d).

(** The call [saveLogEntry] makes on the backend. *)
Inductive Write :=
| AddDoc (dataToSave : DocumentData)
| UpdateDoc (idToUpdate : jsstring) (dataToSave : DocumentData).

(** [idToUpdate] as a condition: [undefined] and [''] are falsy. *)
Definition given (idToUpdate : option jsstring) : bool :=
  match idToUpdate with Some i => truthy i | None => false end.

(** Modelled on the Firestore SDK, which is not part of the sources:
    [Timestamp.fromDate(date)] takes the whole seconds of the time value,
    rounded down, and throws unless they lie between those of
    0001-01-01T00:00:00Z, included, and 10000-01-01T00:00:00Z, excluded.
    [None] is the throw.  The time value of an Invalid Date is NaN, which
    fails neither comparison: no throw happens here, whatever the backend
    call makes of the value later. *)
Definition MIN_SECONDS : Z := -62135596800.
Definition MAX_SECONDS : Z := 253402300800.

Definition fromDate (d : Date) : option TimestampField :=
  match d with
  | TimeValue t =>
      let seconds := t / 1000 in
      if (seconds <? MIN_SECONDS) || (MAX_SECONDS <=? seconds)
      then None else Some (FromDate d)
  | InvalidDate => Some (FromDate d)
  end.

(** The body of the [try] block of [saveLogEntry] up to the backend call:
    the spread of [entryData], the conversion of its timestamp, and the
    choice between [updateDoc] and [addDoc].  Deleting the keys whose value
    is [undefined] changes nothing on [option] fields.  The result is the
    call made on the backend, or [None] when [Timestamp.fromDate] throws:
    the [catch] block then reports the error and no call is made. *)
Definition saveLogEntry (entryData : LogEntryData.t)
    (idToUpdate : option jsstring) : option Write :=
  let dataToSave :=
    mkData (LogEntryData.type entryData) (LogEntryData.activity entryData)
      (LogEntryData.poopSubtype entryData) (LogEntryData.notes entryData)
      None (LogEntryData.mealSubtype entryData)
      (LogEntryData.foodType entryData) in
  dataToSave ←
    match LogEntryData.timestamp entryData with
    | Some d =>
        converted ← fromDate d;
        Some (withTimestamp (Some converted) dataToSave)
    | None =>
        Some (if negb (given idToUpdate)
              then withTimestamp (Some ServerTimestamp) dataToSave
              else dataToSave)
    end;
  match idToUpdate with
  | Some i =>
      if truthy i then
        let dataToSave :=
          match LogEntryData.timestamp entryData with
          | Some _ => dataToSave
          | None => withTimestamp None dataToSave
          end in
        Some (UpdateDoc i dataToSave)
      else Some (AddDoc dataToSave)
  | None => Some (AddDoc dataToSave)
  end.

(** Modelled from the spec: the document store behind [updateDoc] and
    [addDoc] is the Firestore service, which is not part of the sources.
    Its contract is the one of the external interface: "update(id, partial
    document fields) -> success (or fails); unspecified fields must be left
    unmodified server-side", and a server timestamp sentinel is replaced by
    the server's clock. *)
Definition resolve (serverNow : Date) (f : TimestampField) : Date :=
  match f with FromDate d => d | ServerTimestamp => serverNow end.

(** Modelled from the spec: the document a new record is stored as, the
    Firestore service not being part of the sources. *)
Definition stored (serverNow : Date) (data : DocumentData) : LogEntryData.t :=
  LogEntryData.mk (type data) (activity data) (poopSubtype data) (notes data)
    (resolve serverNow <$> timestamp data) (mealSubtype data) (foodType data).

(** Modelled from the spec: the fields of an update replace the stored
    ones, "unspecified fields must be left unmodified server-side"; the
    Firestore service is not part of the sources. *)
Definition mergeFields (serverNow : Date) (old : LogEntryData.t)
    (data : DocumentData) : LogEntryData.t :=
  LogEntryData.mk (type data)
    (from_option Some (LogEntryData.activity old) (activity data))
    (from_option Some (LogEntryData.poopSubtype old) (poopSubtype data))
    (from_option Some (LogEntryData.notes old) (notes data))
    (from_option Some (LogEntryData.timestamp old)
       (resolve serverNow <$> timestamp data))
    (from_option Some (LogEntryData.mealSubtype old) (mealSubtype data))
    (from_option Some (LogEntryData.foodType old) (foodType data)).

(** Modelled from the spec: the effect of a write on the collection of the
    Firestore service, which is not part of the sources; [newId] is the
    identifier the backend assigns to an added document ("create(document)
    -> assigned id"), and an update of a document that does not exist
    fails. *)
Definition apply (serverNow : Date) (newId : jsstring) (w : Write)
    (docs : gmap jsstring LogEntryData.t)
    : option (gmap jsstring LogEntryData.t) :=
  match w with
  | AddDoc data => Some (<[newId := stored serverNow data]> docs)
  | UpdateDoc i data =>
      old ← docs !! i; Some (<[i := mergeFields serverNow old data]> docs)
  end.

(** The [useState] cells of [App]. *)
Record State := mkState {
  logEntries : list LogEntry.t;
  editingEntry : option LogEntry.t;
  isLoading : bool;
  error : option jsstring
}.

Definition setLogEntries (v : list LogEntry.t) (s : State) : State :=
  mkState v (editingEntry s) (isLoading s) (error s).
Definition setEditingEntry (v : option LogEntry.t) (s : State) : State :=
  mkState (logEntries s) v (isLoading s) (error s).
Definition setIsLoading (v : bool) (s : State) : State :=
  mkState (logEntries s) (editingEntry s) v (error s).
Definition setError (v : option jsstring) (s : State) : State :=
  mkState (logEntries s) (editingEntry s) (isLoading s) v.

(** The value caught when a backend call rejects, with its [message]. *)
Record JsError := mkError { message : option jsstring }.

(** How the awaited backend call settles. *)
Inductive Settled := Fulfilled | Rejected (err : JsError).

(** [handleDeleteEntry] up to [await deleteDoc(entryRef)]. *)
Definition handleDeleteEntryCall (s : State) : State :=
  let s := setIsLoading true s in
  setError None s.

(** [handleDeleteEntry] from the moment [deleteDoc] settles: the rest of
    the [try] block, the [catch] block, then [finally], on the state current
    at that moment.  [editingEntry] is the value the handler captured when
    it was called (it is a [useCallback] over [editingEntry]); the list is
    filtered by a functional update, on the list current when the call
    settles. *)
Definition handleDeleteEntrySettle (editingEntry : option LogEntry.t)
    (deleteDoc : Settled) (idToDelete : jsstring) (s : State) : State :=
  let s :=
    match deleteDoc with
    | Fulfilled =>
        let s :=
          setLogEntries
            (filter (fun entry => LogEntry.id entry ≠ idToDelete)
               (logEntries s)) s in
        match editingEntry with
        | Some e =>
            if bool_decide (LogEntry.id e = idToDelete)
            then setEditingEntry None s else s
        | None => s
        end
    | Rejected err =>
        setError
          (Some (lit "Failed to delete activity: " ++
                 orElse (message err)
                   (lit "Ensure Firebase configuration is correct."))) s
    end in
  setIsLoading false s.

(** [handleDeleteEntry] when nothing else changes the state while
    [deleteDoc] is pending: the entry being edited that the handler captured
    is then the one of the state. *)
Definition handleDeleteEntry (deleteDoc : Settled) (idToDelete : jsstring)
    (s : State) : State :=
  handleDeleteEntrySettle (editingEntry s) deleteDoc idToDelete
    (handleDeleteEntryCall s).

(** A document of the query snapshot: [docSnap.id] and the fields of
    [docSnap.data()].  The timestamp field, when there is one, is a
    Firestore [Timestamp], and [toDate()] gives its instant. *)
Module Snapshot.
Record t := mk {
  id : jsstring;
  timestamp : option Z;
  type : LogType;
  activity : option BathroomActivity;
  poopSubtype : option PoopSubtype;
  notes : option jsstring;
  mealSubtype : option MealSubtype;
  foodType : option jsstring
}.
End Snapshot.

(** How [await getDocs(q)] settles. *)
Inductive GetDocs :=
| QuerySnapshot (docs : list Snapshot.t)
| GetDocsRejected (err : JsError).

(** The entry built from one document; [now] is what [new Date()] reads
    when the document has no timestamp. *)
Definition toEntry (now : Z) (docSnap : Snapshot.t) : LogEntry.t :=
  LogEntry.mk (Snapshot.id docSnap)
    (default now (Snapshot.timestamp docSnap))
    (Snapshot.type docSnap) (Snapshot.activity docSnap)
    (Snapshot.poopSubtype docSnap) (Snapshot.notes docSnap)
    (Snapshot.mealSubtype docSnap) (Snapshot.foodType docSnap).

(** [fetchLogEntries], given how [getDocs] settles; [clock i] is the
    reading of [new Date()] while the [i]-th document is converted. *)
Definition fetchLogEntries (clock : nat -> Z) (getDocs : GetDocs)
    (s : State) : State :=
  let s := setIsLoading true s in
  let s := setError None s in
  let s :=
    match getDocs with
    | QuerySnapshot docs =>
        setLogEntries (imap (fun i docSnap => toEntry (clock i) docSnap) docs)
          s
    | GetDocsRejected err =>
        let s :=
          setError
            (Some (lit "Failed to load activities: " ++
                   orElse (message err)
                     (lit "Ensure Firebase configuration is correct."))) s in
        setLogEntries [] s
    end in
  setIsLoading false s.

(** The entries of the quick summary: the first entry of each kind in the
    list. *)
Definition isMeal (entry : LogEntry.t) : bool :=
  bool_decide (LogEntry.type entry = Meal).

Definition isPee (entry : LogEntry.t) : bool :=
  bool_decide (LogEntry.type entry = Bathroom)
  && (bool_decide (LogEntry.activity entry = Some Pee)
      || bool_decide (LogEntry.activity entry = Some Both)).

Definition isPoop (entry : LogEntry.t) : bool :=
  bool_decide (LogEntry.type entry = Bathroom)
  && (bool_decide (LogEntry.activity entry = Some Poop)
      || bool_decide (LogEntry.activity entry = Some Both)).

Definition lastMeal (sortedEntries : list LogEntry.t) : option LogEntry.t :=
  List.find isMeal sortedEntries.

Definition lastPee (sortedEntries : list LogEntry.t) : option LogEntry.t :=
  List.find isPee sortedEntries.

Definition lastPoopEntry (sortedEntries : list LogEntry.t)
    : option LogEntry.t :=
  List.find isPoop sortedEntries.

(** [interval > 1] and [Math.floor(interval)] on the exact quotient. *)
Definition exceedsOne (interval : Q) : bool := negb (Qle_bool interval 1).

(** [formatTimeAgo], with [now] the reading of [new Date().getTime()].
    The quotients are taken exactly; for time values, which are below
    2^53, the floating-point quotients compare with 1 and round down in the
    same way. *)
Definition formatTimeAgo (now date : Z) : jsstring :=
  let seconds := Qfloor (inject_Z (now - date) / 1000) in
  let interval := (inject_Z seconds / 31536000)%Q in
  if exceedsOne interval
  then toString (Z.to_N (Qfloor interval)) ++ lit " years ago" else
  let interval := (inject_Z seconds / 2592000)%Q in
  if exceedsOne interval
  then toString (Z.to_N (Qfloor interval)) ++ lit " months ago" else
  let interval := (inject_Z seconds / 86400)%Q in
  if exceedsOne interval
  then toString (Z.to_N (Qfloor interval)) ++ lit " days ago" else
  let interval := (inject_Z seconds / 3600)%Q in
  if exceedsOne interval
  then toString (Z.to_N (Qfloor interval)) ++ lit " hours ago" else
  let interval := (inject_Z seconds / 60)%Q in
  if exceedsOne interval
  then toString (Z.to_N (Qfloor interval)) ++ lit " minutes ago" else
  if seconds <? 10 then lit "just now"
  else toString (Z.to_N seconds) ++ lit " seconds ago".

(** The conditions of [App]'s JSX: the spinner for
    [isLoading && !logEntries.length], the quick summary and the list for
    [(!isLoading || logEntries.length > 0)], the summary also needing one of
    its three entries; the list is given
    [isLoading && logEntries.length > 0] as its [isLoading]. *)
Definition rendersSpinner (s : State) : bool :=
  isLoading s && bool_decide (List.length (logEntries s) = 0%nat).

Definition rendersSummary (s : State) : bool :=
  (negb (isLoading s) || bool_decide (0 < List.length (logEntries s))%nat)
  && (bool_decide (is_Some (lastMeal (logEntries s)))
      || bool_decide (is_Some (lastPee (logEntries s)))
      || bool_decide (is_Some (lastPoopEntry (logEntries s)))).

Definition rendersLogList (s : State) : option LogList.Rendered :=
  if negb (isLoading s) || bool_decide (0 < List.length (logEntries s))%nat
  then
    Some (LogList.LogList (logEntries s)
            (isLoading s
             && bool_decide (0 < List.length (logEntries s))%nat))
  else None.

End App.

(** ** Type-relevant fields

    The fields of a record that its [type] gives a meaning to: the activity
    and, when the activity implies poop, the poop subtype of a Bathroom
    record; the subtype, food type and notes of a Meal record. *)

Inductive Relevant :=
| BathroomFields (activity : option BathroomActivity)
    (poopSubtype : option PoopSubtype)
| MealFields (mealSubtype : option MealSubtype) (foodType : option jsstring)
    (notes : option jsstring).

Definition impliesPoop (a : option BathroomActivity) : bool :=
  match a with Some Poop | Some Both => true | _ => false end.

Definition relevantOfEntry (e : LogEntry.t) : Relevant :=
  match LogEntry.type e with
  | Bathroom =>
      BathroomFields (LogEntry.activity e)
        (if impliesPoop (LogEntry.activity e)
         then LogEntry.poopSubtype e else None)
  | Meal =>
      MealFields (LogEntry.mealSubtype e) (LogEntry.foodType e)
        (LogEntry.notes e)
  end.

Definition relevantOfData (d : LogEntryData.t) : Relevant :=
  match LogEntryData.type d with
  | Bathroom =>
      BathroomFields (LogEntryData.activity d)
        (if impliesPoop (LogEntryData.activity d)
         then LogEntryData.poopSubtype d else None)
  | Meal =>
      MealFields (LogEntryData.mealSubtype d) (LogEntryData.foodType d)
        (LogEntryData.notes d)
  end.

(** The relevant fields of an entry once every undefined sub-field has its
    default and the Meal texts are trimmed. *)
Definition relevantWithDefaults (e : LogEntry.t) : Relevant :=
  match LogEntry.type e with
  | Bathroom =>
      let a := Some (default Pee (LogEntry.activity e)) in
      BathroomFields a
        (if impliesPoop a
         then Some (default Normal (LogEntry.poopSubtype e)) else None)
  | Meal =>
      let food := trim (orElse (LogEntry.foodType e) (lit "Kibble")) in
      MealFields (Some (default Given (LogEntry.mealSubtype e)))
        (Some (if bool_decide (food = []) then lit "Kibble" else food))
        (Some (trim (orElse (LogEntry.notes e) [])))
  end.

Definition trimmed (o : option jsstring) : bool :=
  match o with Some v => bool_decide (trim v = v) | None => false end.

(** An entry whose relevant fields are all defined and in the form a
    submission gives them: texts trimmed, food type not empty. *)
Definition complete (e : LogEntry.t) : bool :=
  match LogEntry.type e with
  | Bathroom =>
      match LogEntry.activity e with
      | Some Pee => true
      | Some _ => bool_decide (is_Some (LogEntry.poopSubtype e))
      | None => false
      end
  | Meal =>
      bool_decide (is_Some (LogEntry.mealSubtype e))
      && trimmed (LogEntry.foodType e)
      && bool_decide (LogEntry.foodType e ≠ Some [])
      && trimmed (LogEntry.notes e)
  end.

(** An entry that carries the fields of a payload, as the entry loaded back
    after the payload was saved does. *)
Definition sameFields (e : LogEntry.t) (d : LogEntryData.t) : Prop :=
  LogEntry.type e = LogEntryData.type d
  ∧ LogEntry.activity e = LogEntryData.activity d
  ∧ LogEntry.poopSubtype e = LogEntryData.poopSubtype d
  ∧ LogEntry.notes e = LogEntryData.notes d
  ∧ LogEntry.mealSubtype e = LogEntryData.mealSubtype d
  ∧ LogEntry.foodType e = LogEntryData.foodType d.

(** A list of entries ordered by timestamp, latest first, as the query
    [orderBy('timestamp', 'desc')] asks for. *)
Definition descending (entries : list LogEntry.t) : Prop :=
  StronglySorted
    (fun a b => LogEntry.timestamp b <= LogEntry.timestamp a) entries.

(** A string with no white space at either end. *)
Definition isTrimmed (v : jsstring) : Prop := trim v = v.

(** The cells of the group that is not rendered hold their initial
    values. *)
Definition hiddenAtDefaults (s : LogEntryForm.State) : Prop :=
  match LogEntryForm.entryType s with
  | Bathroom =>
      LogEntryForm.mealNotes s = []
      ∧ LogEntryForm.mealSubtype s = Given
      ∧ LogEntryForm.foodType s = lit "Kibble"
  | Meal =>
      LogEntryForm.bathroomActivity s = Pee
      ∧ LogEntryForm.poopSubtype s = Normal
  end.

(** While the poop subtype radios are not rendered, the subtype is
    [Normal]. *)
Definition hiddenPoopTypeNormal (s : LogEntryForm.State) : Prop :=
  LogEntryForm.rendersPoopType s = false → LogEntryForm.poopSubtype s = Normal.

(** * Properties *)

(** ** Strings *)

Section Trim.

Implicit Types s l r : jsstring.

Lemma trimStart_split s :
  ∃ l, s = l ++ trimStart s ∧ forallb isWhiteSpace l = true.
Proof.
  induction s as [|c s [l [Hs Hl]]]; simpl.
  - by exists [].
  - destruct (isWhiteSpace c) eqn:Hc.
    + exists (c :: l). simpl. rewrite Hc, Hl. by rewrite <- Hs.
    + by exists [].
Qed.

Lemma trimStart_head s c s' :
  trimStart s = c :: s' → isWhiteSpace c = false.
Proof.
  induction s as [|a s IH]; simpl; [done|].
  destruct (isWhiteSpace a) eqn:Ha; [done|].
  intros [= -> _]. done.
Qed.

Lemma trimStart_nil_iff s :
  trimStart s = [] ↔ forallb isWhiteSpace s = true.
Proof.
  induction s as [|a s IH]; simpl; [done|].
  destruct (isWhiteSpace a); simpl; [done|]. split; discriminate.
Qed.

Lemma trimStart_fixed s c s' :
  s = c :: s' → isWhiteSpace c = false → trimStart s = s.
Proof. intros -> Hc. simpl. by rewrite Hc. Qed.

Lemma forallb_rev (f : N → bool) s : forallb f (rev s) = forallb f s.
Proof.
  induction s as [|a s IH]; simpl; [done|].
  rewrite forallb_app, IH. simpl. rewrite andb_true_r. apply andb_comm.
Qed.

Lemma trimEnd_split s :
  ∃ r, s = trimEnd s ++ r ∧ forallb isWhiteSpace r = true.
Proof.
  destruct (trimStart_split (rev s)) as [l [Hs Hl]].
  exists (rev l). split.
  - unfold trimEnd. rewrite <- rev_app_distr, <- Hs. by rewrite rev_involutive.
  - by rewrite forallb_rev.
Qed.

Lemma trimEnd_last s s' c :
  trimEnd s = s' ++ [c] → isWhiteSpace c = false.
Proof.
  unfold trimEnd. intros H.
  apply (f_equal (@rev N)) in H. rewrite rev_involutive, rev_app_distr in H.
  simpl in H. by apply trimStart_head in H.
Qed.

Lemma trimEnd_nil_iff s : trimEnd s = [] ↔ forallb isWhiteSpace s = true.
Proof.
  unfold trimEnd. rewrite <- (forallb_rev _ s), <- trimStart_nil_iff.
  split; intros H.
  - apply (f_equal (@rev N)) in H. by rewrite rev_involutive in H.
  - by rewrite H.
Qed.

(** The head of a string survives [trimEnd] unless the string is all white
    space. *)
Lemma trimEnd_head s c s' :
  s = c :: s' → isWhiteSpace c = false → ∃ s'', trimEnd s = c :: s''.
Proof.
  intros -> Hc.
  destruct (trimEnd (c :: s')) as [|a t] eqn:E.
  - apply trimEnd_nil_iff in E. simpl in E. by rewrite Hc in E.
  - destruct (trimEnd_split (c :: s')) as [r [Hs _]].
    rewrite E in Hs. simpl in Hs. injection Hs as -> _. by exists t.
Qed.

(** [trim] removes exactly a white-space prefix and a white-space suffix. *)
Lemma trim_split s :
  ∃ l r, s = l ++ trim s ++ r
         ∧ forallb isWhiteSpace l = true ∧ forallb isWhiteSpace r = true.
Proof.
  destruct (trimStart_split s) as [l [Hs Hl]].
  destruct (trimEnd_split (trimStart s)) as [r [Ht Hr]].
  exists l, r. unfold trim. by rewrite <- Ht, <- Hs.
Qed.

Lemma trim_nil_iff s : trim s = [] ↔ forallb isWhiteSpace s = true.
Proof.
  unfold trim. rewrite trimEnd_nil_iff.
  destruct (trimStart_split s) as [l [Hs Hl]].
  rewrite Hs at 2. rewrite forallb_app, Hl. done.
Qed.

(** What [trim] returns neither starts nor ends with white space. *)
Lemma trim_first s c s' : trim s = c :: s' → isWhiteSpace c = false.
Proof.
  unfold trim. intros H.
  destruct (trimStart s) as [|a t] eqn:E.
  - by vm_compute in H.
  - pose proof (trimStart_head _ _ _ E) as Ha.
    destruct (trimEnd_head (a :: t) a t eq_refl Ha) as [t' Ht'].
    rewrite Ht' in H. by injection H as <- _.
Qed.

Lemma trim_last s s' c : trim s = s' ++ [c] → isWhiteSpace c = false.
Proof. unfold trim. apply trimEnd_last. Qed.

Lemma trimEnd_fixed s s' c :
  s = s' ++ [c] → isWhiteSpace c = false → trimEnd s = s.
Proof.
  intros -> Hc. unfold trimEnd. rewrite rev_app_distr. simpl.
  rewrite Hc. simpl. by rewrite rev_involutive.
Qed.

Lemma trim_idemp s : trim (trim s) = trim s.
Proof.
  destruct (trim s) as [|c t] eqn:E; [done|].
  pose proof (trim_first _ _ _ E) as Hc.
  unfold trim at 1. rewrite (trimStart_fixed (c :: t) c t eq_refl Hc).
  destruct (exists_last (l := c :: t)) as [t' [a Ha]]; [done|].
  rewrite Ha in E. pose proof (trim_last _ _ _ E) as Hlast.
  by apply (trimEnd_fixed _ t' a).
Qed.

End Trim.

(** ** The entry form *)

Section Form.

Import LogEntryForm.

Variable tza : Z.

Implicit Types (s : State) (editingEntry : option LogEntry.t)
  (evs : list Event).

(** Case analysis on what [handleSubmit] branches on. *)
Ltac submit_cases s editingEntry :=
  unfold payload, handleSubmit;
  destruct s as [ty act sub nts dte tme msub food];
  destruct editingEntry as [e|]; simpl;
  try destruct (truthy dte && truthy tme);
  destruct ty; try destruct act; simpl.

Lemma payload_type editingEntry s :
  LogEntryData.type (payload tza editingEntry s) = entryType s.
Proof. submit_cases s editingEntry; reflexivity. Qed.

Lemma payload_bathroom editingEntry s :
  entryType s = Bathroom →
  let p := payload tza editingEntry s in
  LogEntryData.activity p = Some (bathroomActivity s)
  ∧ LogEntryData.poopSubtype p =
      match bathroomActivity s with
      | Pee => None
      | Poop | Both => Some (poopSubtype s)
      end
  ∧ LogEntryData.mealSubtype p = None
  ∧ LogEntryData.foodType p = None
  ∧ LogEntryData.notes p = None.
Proof. submit_cases s editingEntry; intros [=]; repeat split. Qed.

Lemma payload_meal editingEntry s :
  entryType s = Meal →
  let p := payload tza editingEntry s in
  LogEntryData.mealSubtype p = Some (mealSubtype s)
  ∧ LogEntryData.foodType p =
      Some (if bool_decide (trim (foodType s) = [])
            then lit "Kibble" else trim (foodType s))
  ∧ LogEntryData.notes p = Some (trim (mealNotes s))
  ∧ LogEntryData.activity p = None
  ∧ LogEntryData.poopSubtype p = None.
Proof. submit_cases s editingEntry; intros [=]; repeat split. Qed.

Lemma payload_timestamp editingEntry s :
  LogEntryData.timestamp (payload tza editingEntry s) =
    match editingEntry with
    | Some e =>
        if truthy (editDate s) && truthy (editTime s)
        then Some (newTimestamp tza (editDate s) (editTime s)
                     (LogEntry.timestamp e))
        else None
    | None => None
    end.
Proof. submit_cases s editingEntry; reflexivity. Qed.

Lemma truthy_iff (v : jsstring) : truthy v = true ↔ v ≠ [].
Proof. destruct v; simpl; split; congruence. Qed.

(** The poop subtype only moves away from its seeded value by a reset to
    [Normal], as long as the user does not pick one. *)
Lemma poopSubtype_unchanged evs s :
  (∀ v, PoopSubtypeChange v ∉ evs) →
  poopSubtype (fold_left handle evs s) = poopSubtype s
  ∨ poopSubtype (fold_left handle evs s) = Normal.
Proof.
  revert s. induction evs as [|ev evs IH]; intros s Hno; simpl; [by left|].
  assert (Hstep : poopSubtype (handle s ev) = poopSubtype s
                  ∨ poopSubtype (handle s ev) = Normal).
  { destruct ev as [[]|[]| v | | | | |]; simpl; auto.
    exfalso. apply (Hno v). constructor. }
  destruct (IH (handle s ev)) as [H|H].
  - intros v Hv. apply (Hno v). by constructor.
  - rewrite H. exact Hstep.
  - by right.
Qed.

Lemma init_poopSubtype editingEntry :
  poopSubtype (init tza editingEntry) =
    match editingEntry with
    | Some e =>
        match LogEntry.type e with
        | Bathroom => default Normal (LogEntry.poopSubtype e)
        | Meal => Normal
        end
    | None => Normal
    end.
Proof. destruct editingEntry as [[? ? [] ? ? ? ? ?]|]; reflexivity. Qed.

End Form.

(** ** Submission payloads *)

(** C2: whatever the user did before submitting, a Meal payload carries no
    [activity] and no [poopSubtype], and a Bathroom payload carries no
    [mealSubtype] and no [foodType]. *)
Theorem submit_omits_fields_of_other_type
    (tza : Z) (editingEntry : option LogEntry.t)
    (evs : list LogEntryForm.Event) :
  let s := LogEntryForm.session tza editingEntry evs in
  let p := LogEntryForm.payload tza editingEntry s in
  LogEntryData.type p = LogEntryForm.entryType s
  ∧ (LogEntryData.type p = Meal →
       LogEntryData.activity p = None ∧ LogEntryData.poopSubtype p = None)
  ∧ (LogEntryData.type p = Bathroom →
       LogEntryData.mealSubtype p = None ∧ LogEntryData.foodType p = None).
Proof.
  intros s p. subst p.
  rewrite payload_type. split; [done|]. split; intros Hty.
  - destruct (payload_meal tza editingEntry s Hty) as (_ & _ & _ & Ha & Hp).
    by split.
  - destruct (payload_bathroom tza editingEntry s Hty) as (_ & _ & Hm & Hf & _).
    by split.
Qed.

(** C3 (amended): a Bathroom submission omits [poopSubtype] for Pee and
    carries the selected subtype for Poop and Both; in a session where the
    user picks no subtype the selection is [Normal], or the subtype that the
    Bathroom entry being edited brought with it. *)
Theorem bathroom_submit_poopSubtype
    (tza : Z) (editingEntry : option LogEntry.t)
    (evs : list LogEntryForm.Event) :
  let s := LogEntryForm.session tza editingEntry evs in
  let p := LogEntryForm.payload tza editingEntry s in
  LogEntryForm.entryType s = Bathroom →
  (LogEntryForm.bathroomActivity s = Pee →
     LogEntryData.poopSubtype p = None)
  ∧ (LogEntryForm.bathroomActivity s = Poop
     ∨ LogEntryForm.bathroomActivity s = Both →
     LogEntryData.poopSubtype p = Some (LogEntryForm.poopSubtype s))
  ∧ ((∀ v, LogEntryForm.PoopSubtypeChange v ∉ evs) →
     LogEntryForm.poopSubtype s = Normal
     ∨ ∃ e, editingEntry = Some e ∧ LogEntry.type e = Bathroom
            ∧ LogEntry.poopSubtype e = Some (LogEntryForm.poopSubtype s)).
Proof.
  intros s p Hty. subst p.
  destruct (payload_bathroom tza editingEntry s Hty) as (_ & Hp & _).
  rewrite Hp. split; [|split].
  - by intros ->.
  - by intros [-> | ->].
  - intros Hno. subst s. unfold LogEntryForm.session.
    destruct (poopSubtype_unchanged evs (LogEntryForm.init tza editingEntry)
                Hno) as [H|H]; [|by left].
    rewrite H, init_poopSubtype.
    destruct editingEntry as [e|]; [|by left].
    destruct (LogEntry.type e) eqn:Ety; [|by left].
    destruct (LogEntry.poopSubtype e) as [q|] eqn:Eq; [|by left].
    right. by exists e.
Qed.

(** C4: a Meal submission carries [foodType], the trimmed text or "Kibble"
    when the text is empty or white space only, and always carries [notes],
    the trimmed notes text. *)
Theorem meal_submit_foodType_notes
    (tza : Z) (editingEntry : option LogEntry.t) (s : LogEntryForm.State) :
  LogEntryForm.entryType s = Meal →
  let p := LogEntryForm.payload tza editingEntry s in
  (forallb isWhiteSpace (LogEntryForm.foodType s) = true →
     LogEntryData.foodType p = Some (lit "Kibble"))
  ∧ (forallb isWhiteSpace (LogEntryForm.foodType s) = false →
     LogEntryData.foodType p = Some (trim (LogEntryForm.foodType s)))
  ∧ LogEntryData.notes p = Some (trim (LogEntryForm.mealNotes s)).
Proof.
  intros Hty p. subst p.
  destruct (payload_meal tza editingEntry s Hty) as (_ & Hf & Hn & _).
  rewrite Hf, Hn. split; [|split]; [| |done]; intros Hws.
  - apply trim_nil_iff in Hws. by rewrite bool_decide_eq_true_2.
  - rewrite bool_decide_eq_false_2; [done|].
    intros Hnil. apply trim_nil_iff in Hnil. congruence.
Qed.

(** C5: the payload has a [timestamp] exactly when an entry is being edited
    and the date and time strings are both non-empty; the payload of a new
    entry has none. *)
Theorem submit_timestamp_iff_editing
    (tza : Z) (editingEntry : option LogEntry.t) (s : LogEntryForm.State) :
  (is_Some (LogEntryData.timestamp (LogEntryForm.payload tza editingEntry s))
   ↔ is_Some editingEntry
     ∧ LogEntryForm.editDate s ≠ [] ∧ LogEntryForm.editTime s ≠ [])
  ∧ LogEntryData.timestamp (LogEntryForm.payload tza None s) = None.
Proof.
  rewrite !payload_timestamp. split; [|done].
  destruct editingEntry as [e|].
  - rewrite <- !truthy_iff.
    destruct (truthy (LogEntryForm.editDate s)),
      (truthy (LogEntryForm.editTime s)); simpl;
      split; try (intros [x Hx]; discriminate);
      try (intros (_ & H1 & H2); discriminate); eauto.
  - split; [intros [x Hx]; discriminate | intros ([x Hx] & _); discriminate].
Qed.

(** C9: switching the type to Bathroom keeps the bathroom activity and
    resets the meal notes, the meal subtype, the food type and the poop
    subtype to their defaults. *)
Theorem type_change_to_bathroom_keeps_activity (s : LogEntryForm.State) :
  let s' := LogEntryForm.handleEntryTypeChange Bathroom s in
  LogEntryForm.bathroomActivity s' = LogEntryForm.bathroomActivity s
  ∧ LogEntryForm.entryType s' = Bathroom
  ∧ LogEntryForm.mealNotes s' = []
  ∧ LogEntryForm.mealSubtype s' = Given
  ∧ LogEntryForm.foodType s' = lit "Kibble"
  ∧ LogEntryForm.poopSubtype s' = Normal
  ∧ LogEntryForm.editDate s' = LogEntryForm.editDate s
  ∧ LogEntryForm.editTime s' = LogEntryForm.editTime s.
Proof. destruct s. repeat split. Qed.

(** C10: a Bathroom payload always has its [activity], the current
    selection, which is Pee in a fresh form; reopening a Bathroom entry
    without activity and saving it unchanged submits Pee. *)
Theorem bathroom_submit_has_activity
    (tza : Z) (editingEntry : option LogEntry.t)
    (evs : list LogEntryForm.Event) :
  let s := LogEntryForm.session tza editingEntry evs in
  let p := LogEntryForm.payload tza editingEntry s in
  (LogEntryData.type p = Bathroom →
     LogEntryData.activity p = Some (LogEntryForm.bathroomActivity s))
  ∧ LogEntryForm.bathroomActivity (LogEntryForm.init tza None) = Pee
  ∧ (∀ e, editingEntry = Some e → evs = [] →
       LogEntry.type e = Bathroom → LogEntry.activity e = None →
       LogEntryData.type p = Bathroom ∧ LogEntryData.activity p = Some Pee).
Proof.
  intros s p. subst p. split; [|split].
  - rewrite payload_type. intros Hty.
    by destruct (payload_bathroom tza editingEntry s Hty) as (Ha & _).
  - reflexivity.
  - intros e -> -> Hty Hact. subst s. rewrite payload_type.
    assert (Hs : LogEntryForm.entryType
                   (LogEntryForm.session tza (Some e) []) = Bathroom).
    { destruct e; simpl in *; subst; reflexivity. }
    split; [done|].
    destruct (payload_bathroom tza (Some e) _ Hs) as (Ha & _). rewrite Ha.
    destruct e; simpl in *; subst; reflexivity.
Qed.

(** ** Reopening an entry *)

Section Reopen.

Import LogEntryForm.

Variable tza : Z.

Lemma init_fields (e : LogEntry.t) :
  let s := init tza (Some e) in
  entryType s = LogEntry.type e
  ∧ match LogEntry.type e with
    | Bathroom =>
        bathroomActivity s = default Pee (LogEntry.activity e)
        ∧ poopSubtype s = default Normal (LogEntry.poopSubtype e)
    | Meal =>
        mealNotes s = orElse (LogEntry.notes e) []
        ∧ mealSubtype s = default Given (LogEntry.mealSubtype e)
        ∧ foodType s = orElse (LogEntry.foodType e) (lit "Kibble")
    end.
Proof. destruct e as [? ? [] ? ? ? ? ?]; repeat split. Qed.

(** Reopening an entry and submitting it unchanged gives its relevant
    fields with the defaults filled in. *)
Lemma reopen_submit_defaults (e : LogEntry.t) :
  relevantOfData (payload tza (Some e) (init tza (Some e)))
  = relevantWithDefaults e.
Proof.
  destruct (init_fields e) as [Hty Hfields].
  unfold relevantOfData, relevantWithDefaults.
  rewrite payload_type, Hty.
  destruct (LogEntry.type e) eqn:Ety.
  - destruct Hfields as [Ha Hp].
    destruct (payload_bathroom tza (Some e) _ Hty) as (-> & -> & _).
    rewrite Ha, Hp. by destruct (default Pee (LogEntry.activity e)).
  - destruct Hfields as (Hn & Hm & Hf).
    destruct (payload_meal tza (Some e) _ Hty) as (-> & -> & -> & _).
    by rewrite Hn, Hm, Hf.
Qed.

Lemma trimmed_orElse (o : option jsstring) (d : jsstring) :
  trimmed o = true → o ≠ Some [] → trim (orElse o d) = orElse o d ∧
  orElse o d ≠ [] ∧ Some (orElse o d) = o.
Proof.
  destruct o as [[|c v]|]; simpl; [done| |done].
  intros H _. by apply bool_decide_eq_true_1 in H.
Qed.

Lemma trimmed_notes (o : option jsstring) :
  trimmed o = true → Some (trim (orElse o [])) = o.
Proof.
  destruct o as [[|c v]|]; simpl; [done| |done].
  intros H. apply bool_decide_eq_true_1 in H. by rewrite H.
Qed.

Lemma complete_defaults (e : LogEntry.t) :
  complete e = true → relevantWithDefaults e = relevantOfEntry e.
Proof.
  unfold complete, relevantWithDefaults, relevantOfEntry.
  destruct (LogEntry.type e).
  - destruct (LogEntry.activity e) as [[]|]; simpl; try done;
      intros H; apply bool_decide_eq_true_1 in H; destruct H as [q ->]; done.
  - rewrite !andb_true_iff. intros [[[Hm Hf] Hne] Hn].
    apply bool_decide_eq_true_1 in Hm, Hne. destruct Hm as [m ->].
    destruct (trimmed_orElse _ (lit "Kibble") Hf Hne) as (-> & Hne' & Hf').
    rewrite bool_decide_eq_false_2 by done.
    by rewrite Hf', (trimmed_notes _ Hn).
Qed.

(** Conversely, only a complete entry has its relevant fields unchanged by
    the defaults and the trimming. *)
Lemma defaults_complete (e : LogEntry.t) :
  relevantWithDefaults e = relevantOfEntry e → complete e = true.
Proof.
  unfold complete, relevantWithDefaults, relevantOfEntry.
  destruct (LogEntry.type e).
  - destruct (LogEntry.activity e) as [[]|]; simpl; try done;
      intros [= H]; apply bool_decide_eq_true_2; rewrite <- H; by eexists.
  - destruct (LogEntry.mealSubtype e) as [m|]; [|intros H; discriminate H].
    destruct (LogEntry.foodType e) as [fv|]; [|intros H; discriminate H].
    destruct (LogEntry.notes e) as [nv|]; [|intros H; discriminate H].
    intros [= Hf Hn].
    assert (Hfood : trim fv = fv ∧ fv ≠ []).
    { destruct fv as [|c v]; [vm_compute in Hf; discriminate Hf|].
      change (orElse (Some (c :: v)) (lit "Kibble")) with (c :: v) in Hf.
      case_bool_decide as Hempty; [|done].
      rewrite <- Hf in Hempty. vm_compute in Hempty. discriminate Hempty. }
    assert (Hnotes : trim nv = nv).
    { destruct nv as [|c v]; [reflexivity | exact Hn]. }
    destruct Hfood as [Hfood Hne]. unfold trimmed.
    rewrite !bool_decide_eq_true_2; [reflexivity|done|congruence|done|by eexists].
Qed.

End Reopen.

(** C7 (amended): reopening an entry and submitting it unchanged gives the
    entry's type-relevant fields with a default in place of every undefined
    sub-field and with the Meal texts trimmed; it gives back the entry's own
    relevant fields exactly when they are all defined and already in that
    form. *)
Theorem reopen_submit_reproduces_relevant_fields
    (tza : Z) (e : LogEntry.t) :
  let p := LogEntryForm.payload tza (Some e) (LogEntryForm.init tza (Some e)) in
  relevantOfData p = relevantWithDefaults e
  ∧ (relevantOfData p = relevantOfEntry e ↔ complete e = true).
Proof.
  intros p. subst p. rewrite reopen_submit_defaults. split; [done|].
  split; [apply defaults_complete | apply complete_defaults].
Qed.

(** ** The coordinator *)

(** The dates [Timestamp.fromDate] accepts. *)
Lemma fromDate_in_range (t : Z) :
  App.MIN_SECONDS * 1000 <= t < App.MAX_SECONDS * 1000 →
  App.fromDate (TimeValue t) = Some (App.FromDate (TimeValue t)).
Proof.
  unfold App.fromDate, App.MIN_SECONDS, App.MAX_SECONDS. intros H.
  destruct (Z.ltb_spec (t / 1000) (-62135596800));
    [Z.div_mod_to_equations; lia|].
  destruct (Z.leb_spec 253402300800 (t / 1000));
    [Z.div_mod_to_equations; lia|]. reflexivity.
Qed.

Lemma fromDate_out_of_range (t : Z) :
  t < App.MIN_SECONDS * 1000 ∨ App.MAX_SECONDS * 1000 <= t →
  App.fromDate (TimeValue t) = None.
Proof.
  unfold App.fromDate, App.MIN_SECONDS, App.MAX_SECONDS. intros H.
  destruct (Z.ltb_spec (t / 1000) (-62135596800)); [reflexivity|].
  destruct (Z.leb_spec 253402300800 (t / 1000)); [reflexivity|].
  Z.div_mod_to_equations; lia.
Qed.

(** C6 (amended): saving a new entry without timestamp asks the backend for
    a server timestamp; an update without timestamp sends no timestamp
    field, so the stored timestamp stays as it is; an update with a
    timestamp from 0001-01-01T00:00:00Z up to, and not including,
    10000-01-01T00:00:00Z sends it and replaces the stored one; for a
    timestamp outside that range the conversion throws and no update is
    sent. *)
Theorem save_timestamp_handling
    (entryData : LogEntryData.t) (i : jsstring) :
  i ≠ [] →
  (LogEntryData.timestamp entryData = None →
     ∃ data,
       App.saveLogEntry entryData None = Some (App.AddDoc data)
       ∧ App.timestamp data = Some App.ServerTimestamp
       ∧ ∀ serverNow newId (docs : gmap jsstring LogEntryData.t),
           ∃ docs',
             App.apply serverNow newId (App.AddDoc data) docs = Some docs'
             ∧ LogEntryData.timestamp <$> docs' !! newId
               = Some (Some serverNow))
  ∧ (LogEntryData.timestamp entryData = None →
     ∃ data,
       App.saveLogEntry entryData (Some i) = Some (App.UpdateDoc i data)
       ∧ App.timestamp data = None
       ∧ ∀ serverNow newId (docs : gmap jsstring LogEntryData.t) old,
           docs !! i = Some old →
           ∃ docs',
             App.apply serverNow newId (App.UpdateDoc i data) docs = Some docs'
             ∧ LogEntryData.timestamp <$> docs' !! i
               = Some (LogEntryData.timestamp old))
  ∧ (∀ t, LogEntryData.timestamp entryData = Some (TimeValue t) →
     App.MIN_SECONDS * 1000 <= t < App.MAX_SECONDS * 1000 →
     ∃ data,
       App.saveLogEntry entryData (Some i) = Some (App.UpdateDoc i data)
       ∧ App.timestamp data = Some (App.FromDate (TimeValue t))
       ∧ ∀ serverNow newId (docs : gmap jsstring LogEntryData.t) old,
           docs !! i = Some old →
           ∃ docs',
             App.apply serverNow newId (App.UpdateDoc i data) docs = Some docs'
             ∧ LogEntryData.timestamp <$> docs' !! i
               = Some (Some (TimeValue t)))
  ∧ (∀ t, LogEntryData.timestamp entryData = Some (TimeValue t) →
     t < App.MIN_SECONDS * 1000 ∨ App.MAX_SECONDS * 1000 <= t →
     App.saveLogEntry entryData (Some i) = None).
Proof.
  intros Hi. apply truthy_iff in Hi.
  unfold App.saveLogEntry. simpl. rewrite Hi. simpl.
  split; [|split; [|split]].
  - intros ->. eexists. split; [reflexivity|]. split; [reflexivity|].
    intros serverNow newId docs. eexists. split; [reflexivity|].
    by rewrite lookup_insert_eq.
  - intros ->. eexists. split; [reflexivity|]. split; [reflexivity|].
    intros serverNow newId docs old Hold. simpl. rewrite Hold. simpl.
    eexists. split; [reflexivity|]. by rewrite lookup_insert_eq.
  - intros t -> Ht. rewrite (fromDate_in_range t Ht). simpl.
    eexists. split; [reflexivity|]. split; [reflexivity|].
    intros serverNow newId docs old Hold. simpl. rewrite Hold. simpl.
    eexists. split; [reflexivity|]. by rewrite lookup_insert_eq.
  - intros t -> Ht. by rewrite (fromDate_out_of_range t Ht).
Qed.

(** C8: when the backend rejects the deletion, the list of entries and the
    entry being edited are left as they were, the error message is set and
    the busy flag is cleared. *)
Theorem delete_failure_leaves_list
    (err : App.JsError) (idToDelete : jsstring) (s : App.State) :
  let s' := App.handleDeleteEntry (App.Rejected err) idToDelete s in
  App.logEntries s' = App.logEntries s
  ∧ App.editingEntry s' = App.editingEntry s
  ∧ App.error s'
    = Some (lit "Failed to delete activity: " ++
            orElse (App.message err)
              (lit "Ensure Firebase configuration is correct."))
  ∧ App.isLoading s' = false.
Proof. destruct s. repeat split. Qed.

(** On success the entries with that id leave the list, and no error is
    set. *)
Lemma delete_success_filters (idToDelete : jsstring) (s : App.State) :
  let s' := App.handleDeleteEntry App.Fulfilled idToDelete s in
  App.logEntries s'
  = filter (fun entry => LogEntry.id entry ≠ idToDelete) (App.logEntries s)
  ∧ App.error s' = None.
Proof.
  destruct s as [l [e|] b er]; simpl; unfold App.handleDeleteEntry; simpl;
    try case_bool_decide; done.
Qed.

(** ** The model against the component's tests *)

Lemma allDays_spec (start : Z) (count : N) (P : Z → bool) :
  allDays start count P = true →
  ∀ day, start <= day < start + Z.of_N count → P day = true.
Proof.
  unfold allDays.
  assert (Hsnd : ∀ n,
    snd (N.iter n (fun st => (fst st && P (snd st), snd st + 1))
           (true, start)) = start + Z.of_N n).
  { intros n. induction n as [|n IH] using N.peano_ind; simpl; [lia|].
    rewrite N.iter_succ. simpl. rewrite IH. lia. }
  induction count as [|n IH] using N.peano_ind; [intros _ day; lia|].
  rewrite N.iter_succ. simpl. rewrite Hsnd.
  intros [Hfst HP]%andb_true_iff day Hday.
  destruct (decide (day = start + Z.of_N n)) as [->|Hne]; [done|].
  apply IH; [done | lia].
Qed.

(** The calendar functions agree with each other on every day from
    1900-03-01 to 2100-02-28. *)
Lemma calendar_round_trip (day : Z) :
  MakeDay 1900 3 1 <= day < MakeDay 2100 3 1 → civilAgrees day = true.
Proof.
  apply (allDays_spec (MakeDay 1900 3 1) 73049 civilAgrees).
  vm_compute. reflexivity.
Qed.

Example calendar_known_days :
  MakeDay 1970 1 1 = 0 ∧ MakeDay 2023 1 15 = 19372
  ∧ MakeDay 2000 2 29 = 11016 ∧ CivilFromDay (-1) = (1969, 12, 31).
Proof. repeat split. Qed.

(** "should render correctly when editing an entry (Meal)". *)
Example test_render_editing_meal :
  let e :=
    LogEntry.mk (lit "meal1")
      (MakeDate (MakeDay 2023 1 15) (MakeTime 10 30 0 0)) Meal None None
      (Some (lit "Stolen from counter")) (Some Stolen)
      (Some (lit "Test Food")) in
  LogEntryForm.init 0 (Some e)
  = LogEntryForm.mkState Meal Pee Normal (lit "Stolen from counter")
      (lit "2023-01-15") (lit "10:30") Stolen (lit "Test Food").
Proof. vm_compute. reflexivity. Qed.

(** "should call onSaveEntry with correct data for a new Meal entry". *)
Example test_submit_new_meal :
  LogEntryForm.handleSubmit 0 None
    (LogEntryForm.session 0 None
       [LogEntryForm.EntryTypeChange Meal;
        LogEntryForm.FoodTypeChange [];
        LogEntryForm.FoodTypeChange (lit "Kibble");
        LogEntryForm.MealSubtypeChange Given;
        LogEntryForm.MealNotesChange (lit "Morning meal")])
  = (LogEntryData.mk Meal None None (Some (lit "Morning meal")) None
       (Some Given) (Some (lit "Kibble")), None).
Proof. vm_compute. reflexivity. Qed.

(** "should call onSaveEntry with correct data for a new Bathroom entry". *)
Example test_submit_new_bathroom :
  LogEntryForm.handleSubmit 0 None
    (LogEntryForm.session 0 None
       [LogEntryForm.BathroomActivityChange Poop;
        LogEntryForm.PoopSubtypeChange Normal])
  = (LogEntryData.mk Bathroom (Some Poop) (Some Normal) None None None None,
     None).
Proof. vm_compute. reflexivity. Qed.

(** "should submit with default Bathroom selections if not changed". *)
Example test_submit_defaults :
  LogEntryForm.handleSubmit 0 None (LogEntryForm.session 0 None [])
  = (LogEntryData.mk Bathroom (Some Pee) None None None None None, None).
Proof. vm_compute. reflexivity. Qed.

(** ** Edited timestamps *)

Section Timestamp.

Import LogEntryForm.

Ltac div_mod_lia := Z.div_mod_to_equations; lia.

Lemma field_bounds (t : Z) :
  0 <= HourFromTime t < 24 ∧ 0 <= MinFromTime t < 60
  ∧ 0 <= SecFromTime t < 60 ∧ 0 <= msFromTime t < 1000.
Proof.
  unfold HourFromTime, MinFromTime, SecFromTime, msFromTime, msPerSecond.
  repeat split; div_mod_lia.
Qed.

(** The fields of a time built from a day and in-range fields. *)
Lemma fields_of_MakeDate (D h m s ms : Z) :
  0 <= h < 24 → 0 <= m < 60 → 0 <= s < 60 → 0 <= ms < 1000 →
  let t := MakeDate D (MakeTime h m s ms) in
  Day t = D ∧ HourFromTime t = h ∧ MinFromTime t = m
  ∧ SecFromTime t = s ∧ msFromTime t = ms.
Proof.
  intros Hh Hm Hs Hms t. subst t.
  unfold Day, HourFromTime, MinFromTime, SecFromTime, msFromTime, MakeDate,
    MakeTime, msPerDay, msPerHour, msPerMinute, msPerSecond.
  repeat split; div_mod_lia.
Qed.

Lemma decompose_time (L : Z) :
  L = MakeDate (Day L)
        (MakeTime (HourFromTime L) (MinFromTime L) (SecFromTime L)
           (msFromTime L)).
Proof.
  unfold Day, HourFromTime, MinFromTime, SecFromTime, msFromTime, MakeDate,
    MakeTime, msPerDay, msPerHour, msPerMinute, msPerSecond.
  div_mod_lia.
Qed.

Lemma TimeClip_ok (t : Z) :
  Z.abs t <= 8640000000000000 → TimeClip t = TimeValue t.
Proof. intros H. unfold TimeClip. apply Z.leb_le in H. by rewrite H. Qed.

Lemma LocalTime_UTC (tza t : Z) : LocalTime tza (UTC tza t) = t.
Proof. unfold LocalTime, UTC. lia. Qed.

(** A local time built from in-range fields on a day of the years 0 to
    9999 (give or take a day) is not clipped. *)
Lemma local_time_in_range (tza D h m s ms : Z) :
  -msPerDay < tza < msPerDay → -719530 <= D <= 2932900 →
  0 <= h < 24 → 0 <= m < 60 → 0 <= s < 60 → 0 <= ms < 1000 →
  TimeClip (UTC tza (MakeDate D (MakeTime h m s ms)))
  = TimeValue (UTC tza (MakeDate D (MakeTime h m s ms))).
Proof.
  intros Htza HD Hh Hm Hs Hms. apply TimeClip_ok. revert Htza.
  unfold UTC, MakeDate, MakeTime, msPerDay, msPerHour, msPerMinute,
    msPerSecond. lia.
Qed.

Section Setters.

Variables (tza D h m s ms : Z).
Hypothesis Htza : -msPerDay < tza < msPerDay.
Hypothesis HD : -719530 <= D <= 2932900.
Hypothesis Hh : 0 <= h < 24.
Hypothesis Hm : 0 <= m < 60.
Hypothesis Hs : 0 <= s < 60.
Hypothesis Hms : 0 <= ms < 1000.

Let here : Date := TimeValue (UTC tza (MakeDate D (MakeTime h m s ms))).

Lemma setHours_local (h' : Z) :
  0 <= h' < 24 →
  setHours tza here (Some h')
  = TimeValue (UTC tza (MakeDate D (MakeTime h' m s ms))).
Proof.
  intros Hh'. unfold here, setHours. rewrite LocalTime_UTC.
  destruct (fields_of_MakeDate D h m s ms Hh Hm Hs Hms)
    as (-> & _ & -> & -> & ->).
  by apply local_time_in_range.
Qed.

Lemma setMinutes_local (m' : Z) :
  0 <= m' < 60 →
  setMinutes tza here (Some m')
  = TimeValue (UTC tza (MakeDate D (MakeTime h m' s ms))).
Proof.
  intros Hm'. unfold here, setMinutes. rewrite LocalTime_UTC.
  destruct (fields_of_MakeDate D h m s ms Hh Hm Hs Hms)
    as (-> & -> & _ & -> & ->).
  by apply local_time_in_range.
Qed.

Lemma setSeconds_local (s' : Z) :
  0 <= s' < 60 →
  setSeconds tza here (Some s')
  = TimeValue (UTC tza (MakeDate D (MakeTime h m s' ms))).
Proof.
  intros Hs'. unfold here, setSeconds. rewrite LocalTime_UTC.
  destruct (fields_of_MakeDate D h m s ms Hh Hm Hs Hms)
    as (-> & -> & -> & _ & ->).
  by apply local_time_in_range.
Qed.

Lemma setMilliseconds_local (ms' : Z) :
  0 <= ms' < 1000 →
  setMilliseconds tza here (Some ms')
  = TimeValue (UTC tza (MakeDate D (MakeTime h m s ms'))).
Proof.
  intros Hms'. unfold here, setMilliseconds. rewrite LocalTime_UTC.
  destruct (fields_of_MakeDate D h m s ms Hh Hm Hs Hms)
    as (-> & -> & -> & -> & _).
  by apply local_time_in_range.
Qed.

End Setters.

(** The timestamp [handleSubmit] builds for a date string that denotes
    midnight UTC of day [day] and a time string of hour [h] and minute [m]:
    the local day is the one that contains midnight UTC of [day], not [day]
    itself. *)
Lemma newTimestamp_local (tza : Z) (editDate editTime : jsstring)
    (original day h m : Z) (rest : list (option Z)) :
  -msPerDay < tza < msPerDay →
  -719528 <= day <= 2932896 →
  newDate editDate = TimeValue (MakeDate day 0) →
  Number <$> split 58 editTime = Some h :: Some m :: rest →
  0 <= h < 24 → 0 <= m < 60 →
  newTimestamp tza editDate editTime original
  = TimeValue (UTC tza
      (MakeDate (Day (LocalTime tza (MakeDate day 0)))
         (MakeTime h m (getSeconds tza original)
            (getMilliseconds tza original)))).
Proof.
  intros Htza Hday Hdate Hpieces Hh Hm.
  unfold newTimestamp. rewrite Hdate, Hpieces.
  change (default None ((Some h :: Some m :: rest) !! 0%nat)) with (Some h).
  change (default None ((Some h :: Some m :: rest) !! 1%nat)) with (Some m).
  set (L := LocalTime tza (MakeDate day 0)).
  assert (HD : -719530 <= Day L <= 2932900).
  { subst L. revert Htza. unfold Day, LocalTime, MakeDate, msPerDay.
    intros Htza. div_mod_lia. }
  replace (MakeDate day 0) with (UTC tza L)
    by (subst L; unfold UTC, LocalTime; lia).
  rewrite (decompose_time L) at 1.
  destruct (field_bounds L) as (H1 & H2 & H3 & H4).
  destruct (field_bounds (LocalTime tza original)) as (_ & _ & H5 & H6).
  rewrite setHours_local by done.
  rewrite setMinutes_local by done.
  rewrite setSeconds_local by done.
  by rewrite setMilliseconds_local.
Qed.

(** At or east of Greenwich the local day is the edited day. *)
Lemma local_day_east (tza day : Z) :
  0 <= tza < msPerDay → Day (LocalTime tza (MakeDate day 0)) = day.
Proof.
  unfold Day, LocalTime, MakeDate, msPerDay. intros H. div_mod_lia.
Qed.

(** West of Greenwich it is the day before. *)
Lemma local_day_west (tza day : Z) :
  -msPerDay < tza < 0 → Day (LocalTime tza (MakeDate day 0)) = day - 1.
Proof.
  unfold Day, LocalTime, MakeDate, msPerDay. intros H. div_mod_lia.
Qed.

End Timestamp.

(** At or east of Greenwich the payload's timestamp is, in local time, the
    edited day at the edited hour and minute, with the seconds and
    milliseconds of the original. *)
Lemma edit_timestamp_east_of_greenwich
    (tza : Z) (e : LogEntry.t) (s : LogEntryForm.State)
    (day h m : Z) (rest : list (option Z)) :
  0 <= tza < msPerDay →
  -719528 <= day <= 2932896 →
  newDate (LogEntryForm.editDate s) = TimeValue (MakeDate day 0) →
  Number <$> split 58 (LogEntryForm.editTime s) = Some h :: Some m :: rest →
  0 <= h < 24 → 0 <= m < 60 →
  LogEntryData.timestamp (LogEntryForm.payload tza (Some e) s)
  = Some (TimeValue (UTC tza
      (MakeDate day
         (MakeTime h m (getSeconds tza (LogEntry.timestamp e))
            (getMilliseconds tza (LogEntry.timestamp e)))))).
Proof.
  intros Htza Hday Hdate Hpieces Hh Hm. rewrite payload_timestamp.
  assert (Hd : truthy (LogEntryForm.editDate s) = true).
  { destruct (LogEntryForm.editDate s); [discriminate Hdate | done]. }
  assert (Ht : truthy (LogEntryForm.editTime s) = true).
  { destruct (LogEntryForm.editTime s); [discriminate Hpieces | done]. }
  rewrite Hd, Ht. simpl.
  rewrite (newTimestamp_local tza _ _ _ day h m rest) by (done || lia).
  by rewrite local_day_east.
Qed.

(** West of Greenwich it falls on the day before the edited one. *)
Lemma edit_timestamp_west_of_greenwich
    (tza : Z) (e : LogEntry.t) (s : LogEntryForm.State)
    (day h m : Z) (rest : list (option Z)) :
  -msPerDay < tza < 0 →
  -719528 <= day <= 2932896 →
  newDate (LogEntryForm.editDate s) = TimeValue (MakeDate day 0) →
  Number <$> split 58 (LogEntryForm.editTime s) = Some h :: Some m :: rest →
  0 <= h < 24 → 0 <= m < 60 →
  LogEntryData.timestamp (LogEntryForm.payload tza (Some e) s)
  = Some (TimeValue (UTC tza
      (MakeDate (day - 1)
         (MakeTime h m (getSeconds tza (LogEntry.timestamp e))
            (getMilliseconds tza (LogEntry.timestamp e)))))).
Proof.
  intros Htza Hday Hdate Hpieces Hh Hm. rewrite payload_timestamp.
  assert (Hd : truthy (LogEntryForm.editDate s) = true).
  { destruct (LogEntryForm.editDate s); [discriminate Hdate | done]. }
  assert (Ht : truthy (LogEntryForm.editTime s) = true).
  { destruct (LogEntryForm.editTime s); [discriminate Hpieces | done]. }
  rewrite Hd, Ht. simpl.
  rewrite (newTimestamp_local tza _ _ _ day h m rest) by (done || lia).
  by rewrite local_day_west.
Qed.

(** The example of the component's test, run at Greenwich: the edit of
    2023-01-15T10:30:25.500 to 2023-01-17 and 11:45 submits
    2023-01-17T11:45:25.500. *)
Lemma edit_timestamp_example_at_greenwich :
  let original := MakeDate (MakeDay 2023 1 15) (MakeTime 10 30 25 500) in
  let e :=
    LogEntry.mk (lit "editThisOne") original Meal None None
      (Some (lit "Initial notes")) (Some Given) (Some (lit "Old Food")) in
  let s :=
    LogEntryForm.session 0 (Some e)
      [LogEntryForm.EditDateChange (lit "2023-01-17");
       LogEntryForm.EditTimeChange (lit "11:45")] in
  LogEntryData.timestamp (LogEntryForm.payload 0 (Some e) s)
  = Some (TimeValue (MakeDate (MakeDay 2023 1 17) (MakeTime 11 45 25 500))).
Proof. vm_compute. reflexivity. Qed.

(** C1: five hours west of Greenwich, editing the entry of
    2023-01-15T10:30:25.500 (local time) to the date 2023-01-17 and the time
    11:45 submits the local time 2023-01-16T11:45:25.500: the hour, minute,
    seconds and milliseconds are the expected ones, the day is the one
    before the edited date. *)
Theorem edit_timestamp_five_hours_west :
  let tza := -5 * msPerHour in
  let original :=
    UTC tza (MakeDate (MakeDay 2023 1 15) (MakeTime 10 30 25 500)) in
  let e :=
    LogEntry.mk (lit "editThisOne") original Meal None None
      (Some (lit "Initial notes")) (Some Given) (Some (lit "Old Food")) in
  let s :=
    LogEntryForm.session tza (Some e)
      [LogEntryForm.EditDateChange (lit "2023-01-17");
       LogEntryForm.EditTimeChange (lit "11:45")] in
  ∃ t,
    LogEntryData.timestamp (LogEntryForm.payload tza (Some e) s)
    = Some (TimeValue t)
    ∧ LocalTime tza t = MakeDate (MakeDay 2023 1 16) (MakeTime 11 45 25 500)
    ∧ CivilFromDay (Day (LocalTime tza t)) = (2023, 1, 16)
    ∧ LocalTime tza t
      ≠ MakeDate (MakeDay 2023 1 17) (MakeTime 11 45 25 500).
Proof.
  eexists. split; [vm_compute; reflexivity|].
  split; [vm_compute; reflexivity|].
  split; [vm_compute; reflexivity|].
  vm_compute. discriminate.
Qed.

(** The two lemmas at work on the date 2023-01-17 and the time 11:45, two
    hours east and eight hours west. *)
Example edit_timestamp_two_hours_east :
  let tza := 2 * msPerHour in
  let e :=
    LogEntry.mk (lit "editThisOne") 1673778625500 Meal None None None None
      None in
  let s :=
    LogEntryForm.session tza (Some e)
      [LogEntryForm.EditDateChange (lit "2023-01-17");
       LogEntryForm.EditTimeChange (lit "11:45")] in
  LogEntryData.timestamp (LogEntryForm.payload tza (Some e) s)
  = Some (TimeValue (UTC tza
      (MakeDate (MakeDay 2023 1 17) (MakeTime 11 45 25 500)))).
Proof.
  intros tza e s.
  rewrite (edit_timestamp_east_of_greenwich tza e s (MakeDay 2023 1 17)
             11 45 []); try reflexivity; vm_compute; split; congruence.
Qed.

Example edit_timestamp_eight_hours_west :
  let tza := -8 * msPerHour in
  let e :=
    LogEntry.mk (lit "editThisOne") 1673778625500 Meal None None None None
      None in
  let s :=
    LogEntryForm.session tza (Some e)
      [LogEntryForm.EditDateChange (lit "2023-01-17");
       LogEntryForm.EditTimeChange (lit "11:45")] in
  LogEntryData.timestamp (LogEntryForm.payload tza (Some e) s)
  = Some (TimeValue (UTC tza
      (MakeDate (MakeDay 2023 1 16) (MakeTime 11 45 25 500)))).
Proof.
  intros tza e s.
  rewrite (edit_timestamp_west_of_greenwich tza e s (MakeDay 2023 1 17)
             11 45 []); try reflexivity; vm_compute; split; congruence.
Qed.

(** Reopening an entry and saving it unchanged: at Greenwich the timestamp
    comes back as it was; five hours west the form is seeded with the UTC
    date and the local time of 2023-01-15T10:30:25.500, and the submitted
    timestamp is 2023-01-14T10:30:25.500. *)
Example reopen_submit_timestamp_at_greenwich :
  let original := MakeDate (MakeDay 2023 1 15) (MakeTime 10 30 25 500) in
  let e :=
    LogEntry.mk (lit "editThisOne") original Meal None None None None None in
  LogEntryData.timestamp
    (LogEntryForm.payload 0 (Some e) (LogEntryForm.init 0 (Some e)))
  = Some (TimeValue original).
Proof. vm_compute. reflexivity. Qed.

Example reopen_submit_timestamp_five_hours_west :
  let tza := -5 * msPerHour in
  let original :=
    UTC tza (MakeDate (MakeDay 2023 1 15) (MakeTime 10 30 25 500)) in
  let e :=
    LogEntry.mk (lit "editThisOne") original Meal None None None None None in
  LogEntryForm.editDate (LogEntryForm.init tza (Some e)) = lit "2023-01-15"
  ∧ LogEntryForm.editTime (LogEntryForm.init tza (Some e)) = lit "10:30"
  ∧ LogEntryData.timestamp
      (LogEntryForm.payload tza (Some e) (LogEntryForm.init tza (Some e)))
    = Some (TimeValue (UTC tza
        (MakeDate (MakeDay 2023 1 14) (MakeTime 10 30 25 500)))).
Proof. repeat split; vm_compute; reflexivity. Qed.

(** ** Instances *)

Lemma submit_omits_fields_of_other_type_witness :
  let evs :=
    [LogEntryForm.BathroomActivityChange Poop;
     LogEntryForm.PoopSubtypeChange Huge;
     LogEntryForm.EntryTypeChange Meal;
     LogEntryForm.FoodTypeChange (lit "Chicken")] in
  let p := LogEntryForm.payload 0 None (LogEntryForm.session 0 None evs) in
  LogEntryData.type p = Meal
  ∧ LogEntryData.activity p = None ∧ LogEntryData.poopSubtype p = None.
Proof.
  intros evs p. split; [reflexivity|].
  destruct (submit_omits_fields_of_other_type 0 None evs) as (_ & H & _).
  apply H. reflexivity.
Defined.

Lemma bathroom_submit_poopSubtype_witness :
  let evs := [LogEntryForm.BathroomActivityChange Poop] in
  let s := LogEntryForm.session 0 None evs in
  LogEntryForm.entryType s = Bathroom
  ∧ LogEntryData.poopSubtype (LogEntryForm.payload 0 None s) = Some Normal.
Proof.
  intros evs s. split; [reflexivity|].
  destruct (bathroom_submit_poopSubtype 0 None evs eq_refl) as (_ & H & _).
  exact (H (or_introl eq_refl)).
Defined.

(** C3 (counterexample): a Bathroom entry with Poop and the subtype Huge,
    opened for editing and submitted with no subtype picked, submits Huge,
    not Normal. *)
Lemma edited_poop_subtype_not_normal :
  let e :=
    LogEntry.mk (lit "bath1") 1673778625500 Bathroom (Some Poop) (Some Huge)
      None None None in
  let evs : list LogEntryForm.Event := [] in
  let s := LogEntryForm.session 0 (Some e) evs in
  let p := LogEntryForm.payload 0 (Some e) s in
  LogEntryForm.entryType s = Bathroom
  ∧ LogEntryForm.bathroomActivity s = Poop
  ∧ (∀ v, LogEntryForm.PoopSubtypeChange v ∉ evs)
  ∧ LogEntryData.poopSubtype p = Some Huge
  ∧ LogEntryData.poopSubtype p ≠ Some Normal.
Proof.
  intros e evs s p. split; [reflexivity|]. split; [reflexivity|].
  split; [intros v H; inversion H|].
  split; [vm_compute; reflexivity | vm_compute; discriminate].
Qed.

Lemma meal_submit_foodType_notes_witness :
  let s :=
    LogEntryForm.session 0 None
      [LogEntryForm.EntryTypeChange Meal;
       LogEntryForm.FoodTypeChange (lit "   ");
       LogEntryForm.MealNotesChange (lit " Morning meal ")] in
  let p := LogEntryForm.payload 0 None s in
  LogEntryForm.entryType s = Meal
  ∧ LogEntryData.foodType p = Some (lit "Kibble")
  ∧ LogEntryData.notes p = Some (lit "Morning meal").
Proof.
  intros s p. split; [reflexivity|].
  destruct (meal_submit_foodType_notes 0 None s eq_refl) as (H1 & _ & H3).
  split; [exact (H1 eq_refl) | exact H3].
Defined.

Lemma submit_timestamp_iff_editing_witness :
  let e :=
    LogEntry.mk (lit "existingId") 1673778625500 Bathroom (Some Pee) None None
      None None in
  is_Some (LogEntryData.timestamp
             (LogEntryForm.payload 0 (Some e) (LogEntryForm.init 0 (Some e)))).
Proof.
  intros e.
  destruct (submit_timestamp_iff_editing 0 (Some e)
              (LogEntryForm.init 0 (Some e))) as [[_ H] _].
  apply H. split; [by eexists|]. split; vm_compute; discriminate.
Defined.

Lemma bathroom_submit_has_activity_witness :
  let e :=
    LogEntry.mk (lit "existingId") 1673778625500 Bathroom None None None
      None None in
  let p :=
    LogEntryForm.payload 0 (Some e) (LogEntryForm.session 0 (Some e) []) in
  LogEntryData.type p = Bathroom ∧ LogEntryData.activity p = Some Pee.
Proof.
  intros e p.
  destruct (bathroom_submit_has_activity 0 (Some e) []) as (_ & _ & H).
  apply (H e); reflexivity.
Defined.

Lemma reopen_submit_reproduces_relevant_fields_witness :
  let e :=
    LogEntry.mk (lit "meal1") 1673778625500 Meal None None
      (Some (lit "Stolen from counter")) (Some Stolen)
      (Some (lit "Test Food")) in
  complete e = true
  ∧ relevantOfData
      (LogEntryForm.payload 0 (Some e) (LogEntryForm.init 0 (Some e)))
    = MealFields (Some Stolen) (Some (lit "Test Food"))
        (Some (lit "Stolen from counter")).
Proof.
  intros e. split; [vm_compute; reflexivity|].
  destruct (reopen_submit_reproduces_relevant_fields 0 e) as [_ H].
  exact (proj2 H eq_refl).
Defined.

(** C7 (counterexample): reopening a Bathroom entry without activity and
    submitting it unchanged does not give back its relevant fields: the form
    selects Pee and submits it. *)
Lemma reopen_submit_general_break_differs :
  let e :=
    LogEntry.mk (lit "bath1") 1673778625500 Bathroom None None None None
      None in
  relevantOfData
    (LogEntryForm.payload 0 (Some e) (LogEntryForm.init 0 (Some e)))
  ≠ relevantOfEntry e.
Proof. vm_compute. discriminate. Qed.

Lemma save_timestamp_handling_witness :
  let entryData :=
    LogEntryData.mk Bathroom (Some Pee) None None
      (Some (TimeValue 1673887525500)) None None in
  let i := lit "existingId" in
  i ≠ []
  ∧ App.MIN_SECONDS * 1000 <= 1673887525500 < App.MAX_SECONDS * 1000
  ∧ ∃ data,
      App.saveLogEntry entryData (Some i) = Some (App.UpdateDoc i data)
      ∧ App.timestamp data = Some (App.FromDate (TimeValue 1673887525500)).
Proof.
  intros entryData i.
  assert (Hi : i ≠ []) by (vm_compute; discriminate).
  assert (Ht : App.MIN_SECONDS * 1000 <= 1673887525500
               < App.MAX_SECONDS * 1000) by (vm_compute; split; congruence).
  split; [exact Hi|]. split; [exact Ht|].
  destruct (save_timestamp_handling entryData i Hi) as (_ & _ & Hupd & _).
  destruct (Hupd 1673887525500 eq_refl Ht) as (data & E & T & _).
  by exists data.
Defined.

(** C6 (counterexample): in a time zone fixed at five hours west of
    Greenwich, the edit of an entry
    to the date 0001-01-01 and the time 00:00 submits a timestamp before
    0001-01-01T00:00:00Z; the conversion throws and no update is sent, so
    the stored timestamp is not replaced. *)
Lemma save_out_of_range_timestamp_not_sent :
  let tza := -5 * msPerHour in
  let e :=
    LogEntry.mk (lit "existingId") 1673796625500 Bathroom (Some Pee) None
      None None None in
  let s :=
    LogEntryForm.session tza (Some e)
      [LogEntryForm.EditDateChange (lit "0001-01-01");
       LogEntryForm.EditTimeChange (lit "00:00")] in
  LogEntryData.timestamp (LogEntryForm.payload tza (Some e) s)
  = Some (TimeValue (-62135665174500))
  ∧ App.saveLogEntry (LogEntryForm.payload tza (Some e) s)
      (Some (LogEntry.id e)) = None.
Proof. split; vm_compute; reflexivity. Qed.

(** * Further properties *)

(** ** The form between two submissions *)

Section FormSessions.

Import LogEntryForm.

Implicit Types (s : State) (editingEntry : option LogEntry.t)
  (evs : list Event).

Lemma hiddenAtDefaults_init (tza : Z) editingEntry :
  hiddenAtDefaults (init tza editingEntry).
Proof.
  destruct editingEntry as [[? ? [] ? ? ? ? ?]|]; repeat split.
Qed.

Lemma hiddenAtDefaults_handle editingEntry s ev :
  enabled editingEntry s ev = true →
  hiddenAtDefaults s → hiddenAtDefaults (handle s ev).
Proof.
  destruct s as [ty act sub nts dte tme msub food].
  unfold hiddenAtDefaults.
  destruct ev as [[]|[]| | | | | |], ty; simpl;
    try discriminate; intros _; intros H; try exact H; repeat split;
    try (by destruct H as (? & ? & ?)); by destruct H.
Qed.

Lemma hiddenPoopTypeNormal_handle editingEntry s ev :
  enabled editingEntry s ev = true →
  hiddenPoopTypeNormal s → hiddenPoopTypeNormal (handle s ev).
Proof.
  destruct s as [ty act sub nts dte tme msub food].
  unfold hiddenPoopTypeNormal, rendersPoopType, rendersBathroomDetails.
  destruct ev as [[]|[]| | | | | |], ty, act; simpl;
    try discriminate; intros _ H; try exact H; try done;
    intros _; by apply H.
Qed.

Lemma session_invariant (P : State → Prop) editingEntry evs s :
  (∀ s' ev, enabled editingEntry s' ev = true → P s' → P (handle s' ev)) →
  allEnabled editingEntry s evs = true →
  P s → P (fold_left handle evs s).
Proof.
  intros Hstep. revert s.
  induction evs as [|ev evs IH]; intros s Hen HP; simpl; [done|].
  simpl in Hen. apply andb_true_iff in Hen as [Hev Hevs].
  apply IH; [done|]. by apply Hstep.
Qed.

End FormSessions.

(** X1: as long as every event comes from a rendered input, the cells of
    the group that is not shown hold their initial values, in a new entry
    as in an edit; and the poop subtype is [Normal] whenever its radios are
    not shown, provided that was so when the form was mounted, as it is for
    a new entry. *)
Theorem hidden_cells_hold_defaults
    (tza : Z) (editingEntry : option LogEntry.t)
    (evs : list LogEntryForm.Event) :
  LogEntryForm.allEnabled editingEntry (LogEntryForm.init tza editingEntry)
    evs = true →
  let s := LogEntryForm.session tza editingEntry evs in
  hiddenAtDefaults s
  ∧ (hiddenPoopTypeNormal (LogEntryForm.init tza editingEntry) →
     hiddenPoopTypeNormal s)
  ∧ hiddenPoopTypeNormal (LogEntryForm.init tza None).
Proof.
  intros Hen s. subst s. unfold LogEntryForm.session. split; [|split].
  - apply (session_invariant hiddenAtDefaults editingEntry); [|done|].
    + apply hiddenAtDefaults_handle.
    + apply hiddenAtDefaults_init.
  - apply (session_invariant hiddenPoopTypeNormal editingEntry); [|done].
    apply hiddenPoopTypeNormal_handle.
  - intros _. reflexivity.
Qed.

Lemma hidden_cells_hold_defaults_witness :
  let evs :=
    [LogEntryForm.BathroomActivityChange Poop;
     LogEntryForm.PoopSubtypeChange Huge;
     LogEntryForm.BathroomActivityChange Pee;
     LogEntryForm.EntryTypeChange Meal;
     LogEntryForm.FoodTypeChange (lit "Chicken");
     LogEntryForm.EntryTypeChange Bathroom] in
  LogEntryForm.allEnabled None (LogEntryForm.init 0 None) evs = true
  ∧ hiddenAtDefaults (LogEntryForm.session 0 None evs)
  ∧ hiddenPoopTypeNormal (LogEntryForm.session 0 None evs).
Proof.
  intros evs.
  assert (Hen : LogEntryForm.allEnabled None (LogEntryForm.init 0 None) evs
                = true) by reflexivity.
  split; [exact Hen|].
  destruct (hidden_cells_hold_defaults 0 None evs Hen) as (H1 & H2 & H3).
  split; [exact H1 | exact (H2 H3)].
Defined.

(** X2: switching the type and switching back leaves every type-specific
    cell at its initial value, whatever was entered before; only the date
    and time strings survive. *)
Theorem type_toggle_resets (s : LogEntryForm.State) :
  LogEntryForm.handleEntryTypeChange Meal
    (LogEntryForm.handleEntryTypeChange Bathroom s)
  = LogEntryForm.mkState Meal Pee Normal [] (LogEntryForm.editDate s)
      (LogEntryForm.editTime s) Given (lit "Kibble")
  ∧ LogEntryForm.handleEntryTypeChange Bathroom
      (LogEntryForm.handleEntryTypeChange Meal s)
    = LogEntryForm.mkState Bathroom Pee Normal [] (LogEntryForm.editDate s)
        (LogEntryForm.editTime s) Given (lit "Kibble").
Proof. destruct s. split; reflexivity. Qed.

(** ** What a submission looks like *)

Section Normal.

Import LogEntryForm.

Variable tza : Z.

Lemma trim_Kibble : trim (lit "Kibble") = lit "Kibble".
Proof. reflexivity. Qed.

(** The texts of a Meal payload. *)
Lemma payload_meal_texts (editingEntry : option LogEntry.t) (s : State) :
  entryType s = Meal →
  ∃ food nts,
    LogEntryData.foodType (payload tza editingEntry s) = Some food
    ∧ LogEntryData.notes (payload tza editingEntry s) = Some nts
    ∧ food ≠ [] ∧ trim food = food ∧ trim nts = nts.
Proof.
  intros Hty.
  destruct (payload_meal tza editingEntry s Hty) as (_ & Hf & Hn & _).
  eexists _, _. split; [exact Hf|]. split; [exact Hn|].
  split; [|split]; [| |apply trim_idemp]; case_bool_decide; try done.
  apply trim_idemp.
Qed.

(** An entry that carries the fields of a payload is complete. *)
Lemma payload_complete (editingEntry : option LogEntry.t) (s : State)
    (e : LogEntry.t) :
  sameFields e (payload tza editingEntry s) → complete e = true.
Proof.
  intros (Hty & Ha & Hp & Hn & Hm & Hf). unfold complete.
  rewrite payload_type in Hty. rewrite Hty, Ha, Hp, Hn, Hm, Hf.
  destruct (entryType s) eqn:Ety.
  - destruct (payload_bathroom tza editingEntry s Ety) as (-> & -> & _).
    destruct (bathroomActivity s); [done| |];
      by apply bool_decide_eq_true_2.
  - destruct (payload_meal_texts editingEntry s Ety)
      as (food & nts & -> & -> & Hne & Hfood & Hnts).
    destruct (payload_meal tza editingEntry s Ety) as (-> & _).
    simpl. rewrite !andb_true_iff. repeat split;
      apply bool_decide_eq_true_2; try done.
    congruence.
Qed.

Lemma sameFields_relevant (e : LogEntry.t) (d : LogEntryData.t) :
  sameFields e d → relevantOfEntry e = relevantOfData d.
Proof.
  intros (Hty & Ha & Hp & Hn & Hm & Hf).
  unfold relevantOfEntry, relevantOfData.
  by rewrite Hty, Ha, Hp, Hn, Hm, Hf.
Qed.

End Normal.

(** X3: the texts of a Meal payload are in normal form: the food type is
    never empty, and neither the food type nor the notes begin or end with
    white space. *)
Theorem meal_payload_texts_normal
    (tza : Z) (editingEntry : option LogEntry.t) (s : LogEntryForm.State) :
  LogEntryForm.entryType s = Meal →
  ∃ food nts,
    LogEntryData.foodType (LogEntryForm.payload tza editingEntry s)
    = Some food
    ∧ LogEntryData.notes (LogEntryForm.payload tza editingEntry s) = Some nts
    ∧ food ≠ [] ∧ isTrimmed food ∧ isTrimmed nts
    ∧ (∀ c rest, food = c :: rest → isWhiteSpace c = false)
    ∧ (∀ c rest, food = rest ++ [c] → isWhiteSpace c = false).
Proof.
  intros Hty.
  destruct (payload_meal_texts tza editingEntry s Hty)
    as (food & nts & Hf & Hn & Hne & Hfood & Hnts).
  exists food, nts. repeat split; try done.
  - intros c rest E. rewrite E in Hfood. by apply trim_first in Hfood.
  - intros c rest E. rewrite E in Hfood. by apply trim_last in Hfood.
Qed.

Lemma meal_payload_texts_normal_witness :
  let s :=
    LogEntryForm.session 0 None
      [LogEntryForm.EntryTypeChange Meal;
       LogEntryForm.FoodTypeChange (lit "  Wet food ");
       LogEntryForm.MealNotesChange (lit "   ")] in
  LogEntryForm.entryType s = Meal
  ∧ ∃ food nts,
      LogEntryData.foodType (LogEntryForm.payload 0 None s) = Some food
      ∧ LogEntryData.notes (LogEntryForm.payload 0 None s) = Some nts
      ∧ food ≠ [] ∧ isTrimmed food ∧ isTrimmed nts.
Proof.
  intros s. split; [reflexivity|].
  destruct (meal_payload_texts_normal 0 None s eq_refl)
    as (food & nts & Hf & Hn & Hne & Hfood & Hnts & _).
  by exists food, nts.
Defined.

(** X4: what the form submits, it reproduces: reopening an entry that
    carries the fields of any payload of the form, and submitting it
    unchanged, gives a payload with the same type-relevant fields. *)
Theorem submitted_entry_reopens_unchanged
    (tza tza' : Z) (editingEntry : option LogEntry.t)
    (s : LogEntryForm.State) (e : LogEntry.t) :
  sameFields e (LogEntryForm.payload tza editingEntry s) →
  relevantOfData
    (LogEntryForm.payload tza' (Some e) (LogEntryForm.init tza' (Some e)))
  = relevantOfData (LogEntryForm.payload tza editingEntry s).
Proof.
  intros Hsame.
  rewrite reopen_submit_defaults.
  rewrite (complete_defaults e (payload_complete tza editingEntry s e Hsame)).
  by apply sameFields_relevant.
Qed.

Lemma submitted_entry_reopens_unchanged_witness :
  let s :=
    LogEntryForm.session 0 None
      [LogEntryForm.BathroomActivityChange Both;
       LogEntryForm.PoopSubtypeChange Sick] in
  let e :=
    LogEntry.mk (lit "newEntryId") 1673778625500 Bathroom (Some Both)
      (Some Sick) None None None in
  sameFields e (LogEntryForm.payload 0 None s)
  ∧ relevantOfData
      (LogEntryForm.payload 0 (Some e) (LogEntryForm.init 0 (Some e)))
    = BathroomFields (Some Both) (Some Sick).
Proof.
  intros s e.
  assert (Hsame : sameFields e (LogEntryForm.payload 0 None s))
    by (repeat split).
  split; [exact Hsame|].
  exact (submitted_entry_reopens_unchanged 0 0 None s e Hsame).
Defined.

(** ** The list item *)

(** X5: what a list item shows of an entry, its icon, title, notes line
    and general line, depends on the entry's type-relevant fields only: a
    poop subtype on a record that is not Poop or Both, or bathroom fields on
    a Meal record, never show. *)
Theorem item_shows_relevant_fields_only (e e' : LogEntry.t) :
  relevantOfEntry e = relevantOfEntry e' →
  LogItem.ActivityIcon (LogEntry.type e) (LogEntry.activity e)
  = LogItem.ActivityIcon (LogEntry.type e') (LogEntry.activity e')
  ∧ LogItem.ActivityTitle e = LogItem.ActivityTitle e'
  ∧ LogItem.notesLine e = LogItem.notesLine e'
  ∧ LogItem.generalLine e = LogItem.generalLine e'.
Proof.
  unfold relevantOfEntry, LogItem.ActivityTitle, LogItem.notesLine,
    LogItem.generalLine.
  destruct (LogEntry.type e), (LogEntry.type e'); try discriminate.
  - destruct (LogEntry.activity e) as [[]|], (LogEntry.activity e') as [[]|];
      simpl; intros Heq; try discriminate Heq; repeat split;
      injection Heq as Heq; by rewrite Heq.
  - intros [= -> -> ->]. repeat split.
Qed.

Lemma item_shows_relevant_fields_only_witness :
  let e :=
    LogEntry.mk (lit "a") 0 Bathroom (Some Pee) (Some Huge)
      (Some (lit "stray")) (Some Stolen) (Some (lit "Bone")) in
  let e' := LogEntry.mk (lit "b") 1 Bathroom (Some Pee) None None None None in
  relevantOfEntry e = relevantOfEntry e'
  ∧ LogItem.ActivityTitle e = LogItem.ActivityTitle e'.
Proof.
  intros e e'.
  assert (H : relevantOfEntry e = relevantOfEntry e') by reflexivity.
  split; [exact H|].
  exact (proj1 (proj2 (item_shows_relevant_fields_only e e' H))).
Defined.

(** X6: the title tells Bathroom records apart: two Bathroom entries with
    the same title have the same activity and, when it is Poop or Both, the
    same poop subtype. *)
Theorem bathroom_title_determines_fields (e e' : LogEntry.t) :
  LogEntry.type e = Bathroom → LogEntry.type e' = Bathroom →
  LogItem.ActivityTitle e = LogItem.ActivityTitle e' →
  relevantOfEntry e = relevantOfEntry e'.
Proof.
  unfold relevantOfEntry, LogItem.ActivityTitle. intros -> ->.
  destruct (LogEntry.activity e) as [[]|],
    (LogEntry.activity e') as [[]|]; simpl;
    try destruct (LogEntry.poopSubtype e) as [[]|];
    try destruct (LogEntry.poopSubtype e') as [[]|];
    vm_compute; intros H; first [reflexivity | discriminate H].
Qed.

Lemma bathroom_title_determines_fields_witness :
  let e :=
    LogEntry.mk (lit "a") 0 Bathroom (Some Poop) (Some Huge) None None None in
  let e' :=
    LogEntry.mk (lit "b") 1 Bathroom (Some Poop) (Some Huge)
      (Some (lit "n")) None None in
  LogItem.ActivityTitle e = LogItem.ActivityTitle e'
  ∧ relevantOfEntry e = relevantOfEntry e'.
Proof.
  intros e e'.
  assert (H : LogItem.ActivityTitle e = LogItem.ActivityTitle e')
    by reflexivity.
  split; [exact H|].
  exact (bathroom_title_determines_fields e e' eq_refl eq_refl H).
Defined.

(** X7: an entry that carries the fields of a payload of the form is never
    shown as a general bathroom break: a Bathroom entry shows its activity,
    with the poop subtype for Poop and Both, and a Meal entry shows its
    subtype and its food type. *)
Theorem submitted_entry_title
    (tza : Z) (editingEntry : option LogEntry.t) (s : LogEntryForm.State)
    (e : LogEntry.t) :
  sameFields e (LogEntryForm.payload tza editingEntry s) →
  LogItem.generalLine e = None
  ∧ LogItem.ActivityTitle e ≠ lit "Bathroom Break"
  ∧ match LogEntryForm.entryType s with
    | Bathroom =>
        LogItem.ActivityTitle e =
          match LogEntryForm.bathroomActivity s with
          | Pee => lit "Pee Break"
          | Poop =>
              lit "Poop Break (" ++
              LogItem.capitalized
                (LogItem.poopSubtypeValue (LogEntryForm.poopSubtype s))
              ++ lit ")"
          | Both =>
              lit "Pee & Poop Break (Poop: " ++
              LogItem.capitalized
                (LogItem.poopSubtypeValue (LogEntryForm.poopSubtype s))
              ++ lit ")"
          end
    | Meal =>
        ∃ food,
          LogEntryData.foodType (LogEntryForm.payload tza editingEntry s)
          = Some food
          ∧ food ≠ []
          ∧ LogItem.ActivityTitle e =
              lit "Meal (" ++
              match LogEntryForm.mealSubtype s with
              | Given => lit "Given"
              | Stolen => lit "Stolen"
              end ++ lit ": " ++ food ++ lit ")"
    end.
Proof.
  intros (Hty & Ha & Hp & Hn & Hm & Hf).
  rewrite payload_type in Hty.
  unfold LogItem.generalLine, LogItem.ActivityTitle.
  rewrite Hty, Ha, Hp, Hm, Hf.
  destruct (LogEntryForm.entryType s) eqn:Ety.
  - destruct (payload_bathroom tza editingEntry s Ety) as (-> & -> & _).
    destruct (LogEntryForm.bathroomActivity s); simpl;
      try destruct (LogEntryForm.poopSubtype s); repeat split;
      vm_compute; discriminate.
  - destruct (payload_meal_texts tza editingEntry s Ety)
      as (food & nts & Hfood & _ & Hne & _).
    destruct (payload_meal tza editingEntry s Ety) as (-> & _).
    rewrite Hfood. cbv beta iota zeta.
    change (default [] (Some food)) with food.
    pose proof Hne as Htruthy. apply truthy_iff in Htruthy.
    rewrite Htruthy.
    split; [done|]. split.
    + destruct (LogEntryForm.mealSubtype s); vm_compute; discriminate.
    + exists food. split; [done|]. split; [done|].
      destruct (LogEntryForm.mealSubtype s); rewrite <- !app_assoc;
        reflexivity.
Qed.

Lemma submitted_entry_title_witness :
  let s :=
    LogEntryForm.session 0 None
      [LogEntryForm.BathroomActivityChange Both;
       LogEntryForm.PoopSubtypeChange Sick] in
  let e :=
    LogEntry.mk (lit "newEntryId") 1673778625500 Bathroom (Some Both)
      (Some Sick) None None None in
  sameFields e (LogEntryForm.payload 0 None s)
  ∧ LogItem.ActivityTitle e = lit "Pee & Poop Break (Poop: Sick)".
Proof.
  intros s e.
  assert (Hsame : sameFields e (LogEntryForm.payload 0 None s))
    by (repeat split).
  split; [exact Hsame|].
  exact (proj2 (proj2 (submitted_entry_title 0 None s e Hsame))).
Defined.

(** ** The coordinator's list *)

Section Lists.

Implicit Types (entries : list LogEntry.t) (e : LogEntry.t).

Lemma descending_filter (P : LogEntry.t → Prop)
    `{!∀ e, Decision (P e)} entries :
  descending entries → descending (filter P entries).
Proof.
  unfold descending. induction 1 as [|a l Hl IH Ha]; [constructor|].
  rewrite filter_cons. destruct (decide (P a)); [|done].
  constructor; [done|].
  apply List.Forall_forall. intros x Hx.
  assert (Hx' : x ∈ filter P l) by (by apply list_elem_of_In).
  apply list_elem_of_filter in Hx' as [_ Hx'].
  rewrite List.Forall_forall in Ha. apply Ha. by apply list_elem_of_In.
Qed.

(** In a list ordered latest first, the first entry of a kind is the latest
    of that kind. *)
Lemma find_descending (f : LogEntry.t → bool) entries e :
  descending entries → List.find f entries = Some e →
  e ∈ entries ∧ f e = true
  ∧ ∀ e', e' ∈ entries → f e' = true →
      LogEntry.timestamp e' <= LogEntry.timestamp e.
Proof.
  unfold descending. induction 1 as [|a l Hl IH Ha]; simpl; [done|].
  destruct (f a) eqn:Hfa.
  - intros [= <-]. split; [by left|]. split; [done|].
    intros e' He' _. apply elem_of_cons in He' as [->|He']; [lia|].
    rewrite List.Forall_forall in Ha. apply Ha. by apply list_elem_of_In.
  - intros Hfind. destruct (IH Hfind) as (Hin & Hfe & Hmax).
    split; [by right|]. split; [done|].
    intros e' He' Hfe'. apply elem_of_cons in He' as [->|He'].
    + congruence.
    + by apply Hmax.
Qed.

Lemma find_none_iff (f : LogEntry.t → bool) entries :
  List.find f entries = None ↔ ∀ e, e ∈ entries → f e = false.
Proof.
  induction entries as [|a l IH]; simpl.
  - split; [intros _ e He; by apply elem_of_nil in He | done].
  - destruct (f a) eqn:Hfa.
    + split; [done|]. intros H. specialize (H a (list_elem_of_here _ _)).
      congruence.
    + rewrite IH. split.
      * intros H e [->|He]%elem_of_cons; [done | by apply H].
      * intros H e He. apply H. by right.
Qed.

End Lists.

(** X8: when the backend confirms a deletion, the list current at that
    moment keeps exactly the entries with another id, in their order, so
    that a list ordered latest first stays so; the busy flag is cleared and
    the error is not touched.  The entry being edited is cleared when the
    entry the handler captured at the call has the deleted id, and is left
    as it is otherwise, also when the deleted entry was opened for editing
    after the call.  When nothing changed the entry being edited since the
    call, it is kept unless it is the deleted one; and a deletion that
    nothing else interleaves with leaves no error. *)
Theorem delete_success_removes_id
    (captured : option LogEntry.t) (idToDelete : jsstring) (s : App.State) :
  let s' := App.handleDeleteEntrySettle captured App.Fulfilled idToDelete s in
  (∀ e, e ∈ App.logEntries s'
        ↔ e ∈ App.logEntries s ∧ LogEntry.id e ≠ idToDelete)
  ∧ App.logEntries s' `sublist_of` App.logEntries s
  ∧ (descending (App.logEntries s) → descending (App.logEntries s'))
  ∧ ((∃ c, captured = Some c ∧ LogEntry.id c = idToDelete) →
     App.editingEntry s' = None)
  ∧ ((∀ c, captured = Some c → LogEntry.id c ≠ idToDelete) →
     App.editingEntry s' = App.editingEntry s)
  ∧ (captured = App.editingEntry s →
     ∀ e, App.editingEntry s' = Some e
          ↔ App.editingEntry s = Some e ∧ LogEntry.id e ≠ idToDelete)
  ∧ App.error s' = App.error s
  ∧ App.isLoading s' = false
  ∧ App.error (App.handleDeleteEntry App.Fulfilled idToDelete s) = None.
Proof.
  intros s'.
  assert (Hl : App.logEntries s'
               = filter (fun entry => LogEntry.id entry ≠ idToDelete)
                   (App.logEntries s)).
  { subst s'. destruct s as [l ed b er], captured as [c|];
      unfold App.handleDeleteEntrySettle; simpl; try case_bool_decide; done. }
  assert (Hcleared : ∀ c, captured = Some c → LogEntry.id c = idToDelete →
                          App.editingEntry s' = None).
  { intros c -> Hc. subst s'. destruct s as [l ed b er].
    unfold App.handleDeleteEntrySettle. simpl.
    by rewrite bool_decide_eq_true_2. }
  assert (Hkept : (∀ c, captured = Some c → LogEntry.id c ≠ idToDelete) →
                  App.editingEntry s' = App.editingEntry s).
  { intros Hc. subst s'. destruct s as [l ed b er], captured as [c|];
      unfold App.handleDeleteEntrySettle; simpl; [|done].
    by rewrite (bool_decide_eq_false_2 _ (Hc c eq_refl)). }
  rewrite Hl. repeat match goal with |- _ ∧ _ => split end.
  - intros e. rewrite list_elem_of_filter. tauto.
  - apply sublist_filter.
  - apply descending_filter.
  - intros (c & Hc & Hid). by apply (Hcleared c).
  - exact Hkept.
  - intros Hcap e0. destruct captured as [c|].
    + destruct (decide (LogEntry.id c = idToDelete)) as [Hid|Hid].
      * rewrite (Hcleared c eq_refl Hid), <- Hcap.
        split; [intros H; discriminate H | intros [[= <-] Hne]; done].
      * rewrite Hkept by (intros c' [= <-]; exact Hid). rewrite <- Hcap.
        split; [intros [= <-]; by split | by intros [H _]].
    + rewrite Hkept by (intros c' H; discriminate H). rewrite <- Hcap.
      split; [intros H; discriminate H | intros [H _]; discriminate H].
  - subst s'. destruct s as [l ed b er], captured as [c|];
      unfold App.handleDeleteEntrySettle; simpl; try case_bool_decide; done.
  - subst s'. destruct s as [l ed b er], captured as [c|];
      unfold App.handleDeleteEntrySettle; simpl; try case_bool_decide; done.
  - destruct s as [l [c|] b er];
      unfold App.handleDeleteEntry, App.handleDeleteEntrySettle; simpl;
      try case_bool_decide; done.
Qed.

Lemma delete_success_removes_id_witness :
  let a := LogEntry.mk (lit "1") 200 Meal None None None None None in
  let b := LogEntry.mk (lit "deleteMe") 100 Bathroom (Some Pee) None None
             None None in
  let s := App.mkState [a; b] (Some b) true None in
  (∃ c, Some a = Some c ∧ LogEntry.id c = lit "1")
  ∧ App.editingEntry
      (App.handleDeleteEntrySettle (Some a) App.Fulfilled (lit "1") s) = None
  ∧ (∀ c, None = Some c → LogEntry.id c ≠ lit "deleteMe")
  ∧ App.editingEntry
      (App.handleDeleteEntrySettle None App.Fulfilled (lit "deleteMe") s)
    = Some b.
Proof.
  intros a b s.
  assert (H1 : ∃ c, Some a = Some c ∧ LogEntry.id c = lit "1")
    by (exists a; split; reflexivity).
  assert (H2 : ∀ c, None = Some c → LogEntry.id c ≠ lit "deleteMe")
    by (intros c H; discriminate H).
  split; [exact H1|].
  split;
    [exact (proj1 (proj2 (proj2 (proj2
       (delete_success_removes_id (Some a) (lit "1") s)))) H1)|].
  split; [exact H2|].
  exact (proj1 (proj2 (proj2 (proj2 (proj2
    (delete_success_removes_id None (lit "deleteMe") s))))) H2).
Defined.

(** X9: when the list is ordered latest first, each entry of the quick
    summary is the latest of its kind: the latest meal, the latest Bathroom
    entry with Pee or Both, the latest with Poop or Both; and a summary
    entry is missing exactly when the list has no entry of that kind. *)
Theorem summary_shows_latest (entries : list LogEntry.t) :
  descending entries →
  (∀ f last, (f, last) ∈ [(App.isMeal, App.lastMeal entries);
                          (App.isPee, App.lastPee entries);
                          (App.isPoop, App.lastPoopEntry entries)] →
     match last with
     | Some e =>
         e ∈ entries ∧ f e = true
         ∧ ∀ e', e' ∈ entries → f e' = true →
             LogEntry.timestamp e' <= LogEntry.timestamp e
     | None => ∀ e, e ∈ entries → f e = false
     end).
Proof.
  intros Hd f last Hin.
  assert (Hfind : last = List.find f entries).
  { repeat (apply elem_of_cons in Hin as [[= -> ->]|Hin]; [done|]).
    by apply elem_of_nil in Hin. }
  subst last. destruct (List.find f entries) as [e|] eqn:E.
  - by apply find_descending.
  - by apply find_none_iff.
Qed.

Lemma summary_shows_latest_witness :
  let a := LogEntry.mk (lit "3") 300 Bathroom None None None None None in
  let b := LogEntry.mk (lit "2") 200 Bathroom (Some Both) (Some Normal) None
             None None in
  let c := LogEntry.mk (lit "1") 100 Bathroom (Some Pee) None None None
             None in
  descending [a; b; c]
  ∧ App.lastPee [a; b; c] = Some b
  ∧ App.lastPoopEntry [a; b; c] = Some b
  ∧ ∀ e', e' ∈ [a; b; c] → App.isPee e' = true → LogEntry.timestamp e' <= 200.
Proof.
  intros a b c.
  assert (H : descending [a; b; c]).
  { repeat constructor; simpl; lia. }
  split; [exact H|]. split; [reflexivity|]. split; [reflexivity|].
  pose proof (summary_shows_latest [a; b; c] H App.isPee
                (App.lastPee [a; b; c])) as Hs.
  apply Hs. right. left.
Defined.

(** ** What the coordinator renders *)

(** X10: of the spinner, the empty-log message and the activity log, the
    application shows exactly one: the spinner while loading with no entry,
    the message when not loading with no entry, the log of all the entries
    as soon as there is one.  The list component is never asked to render
    an empty log. *)
Theorem one_view_at_a_time (s : App.State) :
  match App.rendersLogList s with
  | None =>
      App.rendersSpinner s = true
      ∧ App.isLoading s = true ∧ App.logEntries s = []
  | Some LogList.NoActivities =>
      App.rendersSpinner s = false
      ∧ App.isLoading s = false ∧ App.logEntries s = []
  | Some (LogList.ActivityLog items) =>
      App.rendersSpinner s = false
      ∧ items = App.logEntries s ∧ items ≠ []
  end.
Proof.
  destruct s as [[|e l] ed [] er]; repeat split; done.
Qed.

(** X11: after a load that the backend rejects, the list is empty, the
    message "Failed to load activities: ..." is set, and the application
    shows the empty-log message, no spinner and no summary, rather than the
    entries it had; the entry being edited stays. *)
Theorem load_failure_shows_empty_log
    (clock : nat → Z) (err : App.JsError) (s : App.State) :
  let s' := App.fetchLogEntries clock (App.GetDocsRejected err) s in
  App.logEntries s' = []
  ∧ App.error s'
    = Some (lit "Failed to load activities: " ++
            orElse (App.message err)
              (lit "Ensure Firebase configuration is correct."))
  ∧ App.rendersLogList s' = Some LogList.NoActivities
  ∧ App.rendersSpinner s' = false
  ∧ App.rendersSummary s' = false
  ∧ App.editingEntry s' = App.editingEntry s.
Proof. destruct s. repeat split. Qed.

Section Load.

Lemma fetch_timestamps (clock : nat → Z) (docs : list App.Snapshot.t)
    (ts : list Z) :
  App.Snapshot.timestamp <$> docs = Some <$> ts →
  LogEntry.timestamp
    <$> imap (fun i docSnap => App.toEntry (clock i) docSnap) docs = ts.
Proof.
  revert clock ts. induction docs as [|d docs IH]; intros clock [|t ts];
    simpl; try done.
  intros [= Hd Hds]. rewrite Hd. simpl. f_equal.
  apply (IH (clock ∘ S) ts Hds).
Qed.

Lemma fetch_ids (clock : nat → Z) (docs : list App.Snapshot.t) :
  LogEntry.id <$> imap (fun i docSnap => App.toEntry (clock i) docSnap) docs
  = App.Snapshot.id <$> docs.
Proof.
  revert clock. induction docs as [|d docs IH]; intros clock; simpl;
    [done|].
  f_equal. apply (IH (clock ∘ S)).
Qed.

Lemma descending_timestamps (entries : list LogEntry.t) :
  StronglySorted (fun a b => b <= a) (LogEntry.timestamp <$> entries) →
  descending entries.
Proof.
  unfold descending. induction entries as [|a l IH]; simpl; [constructor|].
  intros H. apply StronglySorted_inv in H as [Hl Ha].
  constructor; [by apply IH|].
  rewrite List.Forall_forall in Ha. apply List.Forall_forall.
  intros x Hx. apply Ha. by apply (in_map LogEntry.timestamp).
Qed.

End Load.

(** X12: a successful load takes the documents over in their order: the
    list has their ids, no error is set, and when every document has a
    timestamp the entries have those timestamps, so that documents ordered
    latest first give a list ordered latest first.  A document without
    timestamp gets the reading of the clock instead. *)
Theorem load_success_keeps_order
    (clock : nat → Z) (docs : list App.Snapshot.t) (s : App.State) :
  let s' := App.fetchLogEntries clock (App.QuerySnapshot docs) s in
  LogEntry.id <$> App.logEntries s' = App.Snapshot.id <$> docs
  ∧ App.error s' = None ∧ App.isLoading s' = false
  ∧ (∀ i d, docs !! i = Some d → App.Snapshot.timestamp d = None →
       LogEntry.timestamp <$> App.logEntries s' !! i = Some (clock i))
  ∧ (∀ ts, App.Snapshot.timestamp <$> docs = Some <$> ts →
       LogEntry.timestamp <$> App.logEntries s' = ts
       ∧ (StronglySorted (fun a b => b <= a) ts →
          descending (App.logEntries s'))).
Proof.
  intros s'.
  assert (Hl : App.logEntries s'
               = imap (fun i docSnap => App.toEntry (clock i) docSnap) docs)
    by (subst s'; by destruct s).
  rewrite Hl. split; [apply fetch_ids|].
  split; [subst s'; by destruct s|]. split; [subst s'; by destruct s|].
  split.
  - intros i d Hi Hd. rewrite list_lookup_imap, Hi. simpl. by rewrite Hd.
  - intros ts Hts. pose proof (fetch_timestamps clock docs ts Hts) as H.
    split; [exact H|]. intros Hsorted. apply descending_timestamps.
    by rewrite H.
Qed.

Lemma load_success_keeps_order_witness :
  let d1 := App.Snapshot.mk (lit "2") (Some 200) Meal None None None None
              None in
  let d2 := App.Snapshot.mk (lit "1") (Some 100) Bathroom (Some Pee) None
              None None None in
  let s := App.mkState [] None true None in
  descending
    (App.logEntries
       (App.fetchLogEntries (fun _ => 0) (App.QuerySnapshot [d1; d2]) s)).
Proof.
  intros d1 d2 s.
  destruct (load_success_keeps_order (fun _ => 0) [d1; d2] s)
    as (_ & _ & _ & _ & H).
  destruct (H [200; 100] eq_refl) as [_ Hd].
  apply Hd. repeat constructor; lia.
Defined.

(** ** From the form to the backend *)

(** X13: what the form submits reaches the backend as follows.  A new
    entry is always added, with the server's timestamp and never one of the
    client.  An edit of an entry with a non-empty id whose date or time
    string is empty updates the document of that id without a timestamp.
    When both strings are non-empty and give a time, the edit updates the
    document with that time if it lies from 0001-01-01T00:00:00Z up to, and
    not including, 10000-01-01T00:00:00Z, and sends nothing otherwise. *)
Theorem submission_reaches_backend
    (tza : Z) (s : LogEntryForm.State) :
  (∃ data,
     App.saveLogEntry (fst (LogEntryForm.handleSubmit tza None s))
       (snd (LogEntryForm.handleSubmit tza None s)) = Some (App.AddDoc data)
     ∧ App.timestamp data = Some App.ServerTimestamp
     ∧ App.type data = LogEntryForm.entryType s)
  ∧ (∀ e, LogEntry.id e ≠ [] →
     let sent :=
       App.saveLogEntry (fst (LogEntryForm.handleSubmit tza (Some e) s))
         (snd (LogEntryForm.handleSubmit tza (Some e) s)) in
     (LogEntryForm.editDate s = [] ∨ LogEntryForm.editTime s = [] →
      ∃ data,
        sent = Some (App.UpdateDoc (LogEntry.id e) data)
        ∧ App.type data = LogEntryForm.entryType s
        ∧ App.timestamp data = None)
     ∧ (∀ t,
        LogEntryForm.editDate s ≠ [] → LogEntryForm.editTime s ≠ [] →
        LogEntryForm.newTimestamp tza (LogEntryForm.editDate s)
          (LogEntryForm.editTime s) (LogEntry.timestamp e) = TimeValue t →
        (App.MIN_SECONDS * 1000 <= t < App.MAX_SECONDS * 1000 →
         ∃ data,
           sent = Some (App.UpdateDoc (LogEntry.id e) data)
           ∧ App.type data = LogEntryForm.entryType s
           ∧ App.timestamp data = Some (App.FromDate (TimeValue t)))
        ∧ (t < App.MIN_SECONDS * 1000 ∨ App.MAX_SECONDS * 1000 <= t →
           sent = None))).
Proof.
  split.
  - unfold App.saveLogEntry.
    change (fst (LogEntryForm.handleSubmit tza None s))
      with (LogEntryForm.payload tza None s).
    rewrite payload_timestamp, payload_type. simpl.
    eexists. repeat split.
  - intros e Hid sent. apply truthy_iff in Hid. subst sent.
    unfold App.saveLogEntry.
    change (fst (LogEntryForm.handleSubmit tza (Some e) s))
      with (LogEntryForm.payload tza (Some e) s).
    rewrite payload_timestamp, payload_type.
    change (snd (LogEntryForm.handleSubmit tza (Some e) s))
      with (Some (LogEntry.id e)).
    cbv beta iota zeta. unfold App.given. rewrite Hid. split.
    + intros Hempty.
      assert (truthy (LogEntryForm.editDate s)
              && truthy (LogEntryForm.editTime s) = false) as ->.
      { destruct Hempty as [-> | ->]; [reflexivity|].
        by rewrite andb_false_r. }
      simpl. eexists. repeat split.
    + intros t Hd Ht Hnew.
      apply truthy_iff in Hd, Ht. rewrite Hd, Ht, Hnew. cbn [andb]. split.
      * intros Hrange. rewrite (fromDate_in_range t Hrange). simpl.
        eexists. repeat split.
      * intros Hrange. by rewrite (fromDate_out_of_range t Hrange).
Qed.

Lemma submission_reaches_backend_witness :
  let e :=
    LogEntry.mk (lit "existingId") 1673778625500 Bathroom (Some Pee) None None
      None None in
  let s := LogEntryForm.init 0 (Some e) in
  LogEntry.id e ≠ []
  ∧ LogEntryForm.editDate s ≠ [] ∧ LogEntryForm.editTime s ≠ []
  ∧ LogEntryForm.newTimestamp 0 (LogEntryForm.editDate s)
      (LogEntryForm.editTime s) (LogEntry.timestamp e)
    = TimeValue 1673778625500
  ∧ App.MIN_SECONDS * 1000 <= 1673778625500 < App.MAX_SECONDS * 1000
  ∧ ∃ data,
      App.saveLogEntry (fst (LogEntryForm.handleSubmit 0 (Some e) s))
        (snd (LogEntryForm.handleSubmit 0 (Some e) s))
      = Some (App.UpdateDoc (lit "existingId") data)
      ∧ App.type data = Bathroom
      ∧ App.timestamp data = Some (App.FromDate (TimeValue 1673778625500)).
Proof.
  intros e s.
  assert (Hid : LogEntry.id e ≠ []) by (vm_compute; discriminate).
  assert (Hd : LogEntryForm.editDate s ≠ []) by (vm_compute; discriminate).
  assert (Ht : LogEntryForm.editTime s ≠ []) by (vm_compute; discriminate).
  assert (Hnew : LogEntryForm.newTimestamp 0 (LogEntryForm.editDate s)
                   (LogEntryForm.editTime s) (LogEntry.timestamp e)
                 = TimeValue 1673778625500) by (vm_compute; reflexivity).
  assert (Hr : App.MIN_SECONDS * 1000 <= 1673778625500
               < App.MAX_SECONDS * 1000) by (vm_compute; split; congruence).
  split; [exact Hid|]. split; [exact Hd|]. split; [exact Ht|].
  split; [exact Hnew|]. split; [exact Hr|].
  destruct (submission_reaches_backend 0 s) as [_ H].
  destruct (H e Hid) as [_ H'].
  destruct (H' 1673778625500 Hd Ht Hnew) as [Hin _].
  destruct (Hin Hr) as (data & E & Hty & Hts).
  exists data. split; [exact E|]. split; [exact Hty | exact Hts].
Defined.

(** X14: an update that is sent never clears a stored field, so an edit that
    changes the kind of a record leaves the fields of the former kind in the
    document.  Whenever the submission of an edit leads to a write and the
    submitted timestamp, if any, is a time: after a Bathroom submission the
    stored meal subtype, food type and notes are the old ones, and for Pee
    so is the stored poop subtype; after a Meal submission the stored
    activity and poop subtype are the old ones. *)
Theorem update_keeps_fields_of_former_kind
    (tza : Z) (e : LogEntry.t) (s : LogEntryForm.State)
    (serverNow : Date) (newId : jsstring)
    (docs : gmap jsstring LogEntryData.t) (old : LogEntryData.t)
    (w : App.Write) :
  LogEntry.id e ≠ [] →
  docs !! LogEntry.id e = Some old →
  LogEntryData.timestamp (fst (LogEntryForm.handleSubmit tza (Some e) s))
  ≠ Some InvalidDate →
  App.saveLogEntry (fst (LogEntryForm.handleSubmit tza (Some e) s))
    (snd (LogEntryForm.handleSubmit tza (Some e) s)) = Some w →
  ∃ docs' doc,
    App.apply serverNow newId w docs = Some docs'
    ∧ docs' !! LogEntry.id e = Some doc
    ∧ LogEntryData.type doc = LogEntryForm.entryType s
    ∧ match LogEntryForm.entryType s with
      | Bathroom =>
          LogEntryData.mealSubtype doc = LogEntryData.mealSubtype old
          ∧ LogEntryData.foodType doc = LogEntryData.foodType old
          ∧ LogEntryData.notes doc = LogEntryData.notes old
          ∧ (LogEntryForm.bathroomActivity s = Pee →
             LogEntryData.poopSubtype doc = LogEntryData.poopSubtype old)
      | Meal =>
          LogEntryData.activity doc = LogEntryData.activity old
          ∧ LogEntryData.poopSubtype doc = LogEntryData.poopSubtype old
      end.
Proof.
  intros Hid Hold Hvalid. apply truthy_iff in Hid.
  unfold App.saveLogEntry.
  change (fst (LogEntryForm.handleSubmit tza (Some e) s))
    with (LogEntryForm.payload tza (Some e) s) in *.
  change (snd (LogEntryForm.handleSubmit tza (Some e) s))
    with (Some (LogEntry.id e)).
  rewrite payload_type. cbv beta iota zeta. unfold App.given. rewrite Hid.
  assert (Happly : ∀ data,
    App.apply serverNow newId (App.UpdateDoc (LogEntry.id e) data) docs
    = Some (<[LogEntry.id e := App.mergeFields serverNow old data]> docs)).
  { intros data. simpl. by rewrite Hold. }
  assert (Hsent : ∀ d,
    LogEntryData.timestamp (LogEntryForm.payload tza (Some e) s) = Some d →
    ∀ c, App.fromDate d = Some c → ∃ t, c = App.FromDate (TimeValue t)).
  { intros [t|] Hd c Hc; [|by rewrite Hd in Hvalid].
    exists t. unfold App.fromDate in Hc.
    destruct (_ || _) in Hc; congruence. }
  destruct (LogEntryForm.entryType s) eqn:Ety.
  - destruct (payload_bathroom tza (Some e) s Ety)
      as (Ha & Hp & Hm & Hf & Hn).
    destruct (LogEntryData.timestamp (LogEntryForm.payload tza (Some e) s))
      as [d|] eqn:Hts.
    + destruct (App.fromDate d) as [c|] eqn:Hc; simpl; [|discriminate].
      destruct (Hsent d eq_refl c Hc) as [t ->].
      intros [= <-]. rewrite Happly. eexists _, _. split; [reflexivity|].
      rewrite lookup_insert_eq. split; [reflexivity|].
      simpl. rewrite Hm, Hf, Hn, Hp. repeat split; by intros ->.
    + simpl. intros [= <-]. rewrite Happly. eexists _, _.
      split; [reflexivity|].
      rewrite lookup_insert_eq. split; [reflexivity|].
      simpl. rewrite Hm, Hf, Hn, Hp. repeat split; by intros ->.
  - destruct (payload_meal tza (Some e) s Ety) as (_ & _ & _ & Ha & Hp).
    destruct (LogEntryData.timestamp (LogEntryForm.payload tza (Some e) s))
      as [d|] eqn:Hts.
    + destruct (App.fromDate d) as [c|] eqn:Hc; simpl; [|discriminate].
      destruct (Hsent d eq_refl c Hc) as [t ->].
      intros [= <-]. rewrite Happly. eexists _, _. split; [reflexivity|].
      rewrite lookup_insert_eq. split; [reflexivity|].
      simpl. rewrite Ha, Hp. repeat split.
    + simpl. intros [= <-]. rewrite Happly. eexists _, _.
      split; [reflexivity|].
      rewrite lookup_insert_eq. split; [reflexivity|].
      simpl. rewrite Ha, Hp. repeat split.
Qed.

Lemma update_keeps_fields_of_former_kind_witness :
  let e :=
    LogEntry.mk (lit "meal1") 1673778625500 Meal None None
      (Some (lit "Stolen from counter")) (Some Stolen)
      (Some (lit "Test Food")) in
  let old :=
    LogEntryData.mk Meal None None (Some (lit "Stolen from counter"))
      (Some (TimeValue 1673778625500)) (Some Stolen)
      (Some (lit "Test Food")) in
  let s :=
    LogEntryForm.session 0 (Some e) [LogEntryForm.EntryTypeChange Bathroom] in
  let docs : gmap jsstring LogEntryData.t := {[ lit "meal1" := old ]} in
  let w :=
    App.UpdateDoc (lit "meal1")
      (App.mkData Bathroom (Some Pee) None None
         (Some (App.FromDate (TimeValue 1673778625500))) None None) in
  LogEntry.id e ≠ [] ∧ docs !! LogEntry.id e = Some old
  ∧ LogEntryData.timestamp (fst (LogEntryForm.handleSubmit 0 (Some e) s))
    ≠ Some InvalidDate
  ∧ App.saveLogEntry (fst (LogEntryForm.handleSubmit 0 (Some e) s))
      (snd (LogEntryForm.handleSubmit 0 (Some e) s)) = Some w
  ∧ ∃ docs' doc,
      App.apply InvalidDate [] w docs = Some docs'
      ∧ docs' !! LogEntry.id e = Some doc
      ∧ LogEntryData.type doc = Bathroom
      ∧ LogEntryData.foodType doc = Some (lit "Test Food").
Proof.
  intros e old s docs w.
  assert (Hid : LogEntry.id e ≠ []) by (vm_compute; discriminate).
  assert (Hold : docs !! LogEntry.id e = Some old)
    by apply lookup_singleton_eq.
  assert (Hvalid :
    LogEntryData.timestamp (fst (LogEntryForm.handleSubmit 0 (Some e) s))
    ≠ Some InvalidDate) by (vm_compute; discriminate).
  assert (Hw :
    App.saveLogEntry (fst (LogEntryForm.handleSubmit 0 (Some e) s))
      (snd (LogEntryForm.handleSubmit 0 (Some e) s)) = Some w)
    by (vm_compute; reflexivity).
  split; [exact Hid|]. split; [exact Hold|]. split; [exact Hvalid|].
  split; [exact Hw|].
  destruct (update_keeps_fields_of_former_kind 0 e s InvalidDate [] docs old
              w Hid Hold Hvalid Hw)
    as (docs' & doc & E & Hdoc & Hty & _ & Hf & _).
  exists docs', doc. split; [exact E|]. split; [exact Hdoc|].
  split; [exact Hty | exact Hf].
Defined.

(** ** Relative times *)

Section TimeAgo.

Lemma Qfloor_quotient (n : Z) (p : positive) :
  Qfloor (inject_Z n / (Z.pos p # 1)) = n / Z.pos p.
Proof.
  unfold Qdiv, Qmult, Qinv, inject_Z, Qfloor. simpl.
  by rewrite Z.mul_1_r.
Qed.

Lemma exceedsOne_quotient (n : Z) (p : positive) :
  App.exceedsOne (inject_Z n / (Z.pos p # 1)) = (Z.pos p <? n).
Proof.
  unfold App.exceedsOne, Qle_bool, Qdiv, Qmult, Qinv, inject_Z. simpl.
  rewrite !Z.mul_1_r. rewrite Z.ltb_antisym. reflexivity.
Qed.

(** [formatTimeAgo] on whole seconds. *)
Lemma formatTimeAgo_seconds (now date : Z) :
  let seconds := (now - date) / 1000 in
  App.formatTimeAgo now date =
    if 31536000 <? seconds
    then toString (Z.to_N (seconds / 31536000)) ++ lit " years ago"
    else if 2592000 <? seconds
    then toString (Z.to_N (seconds / 2592000)) ++ lit " months ago"
    else if 86400 <? seconds
    then toString (Z.to_N (seconds / 86400)) ++ lit " days ago"
    else if 3600 <? seconds
    then toString (Z.to_N (seconds / 3600)) ++ lit " hours ago"
    else if 60 <? seconds
    then toString (Z.to_N (seconds / 60)) ++ lit " minutes ago"
    else if seconds <? 10 then lit "just now"
    else toString (Z.to_N seconds) ++ lit " seconds ago".
Proof.
  intros seconds. unfold App.formatTimeAgo.
  rewrite (Qfloor_quotient (now - date) 1000). fold seconds.
  cbv zeta. by rewrite !exceedsOne_quotient, !Qfloor_quotient.
Qed.

End TimeAgo.

(** X15: [formatTimeAgo] counts in the largest unit that the age exceeds
    (a minute, an hour, a day, 30 days, 365 days), so the count shown is at
    least 1 and can be as large as the unit allows: an age of exactly one
    minute reads "60 seconds ago", exactly one hour "60 minutes ago",
    exactly one day "24 hours ago".  Ages under ten seconds, and dates in
    the future, read "just now". *)
Theorem time_ago_units (now date : Z) :
  let seconds := (now - date) / 1000 in
  let ago (n : Z) (unit : string) := toString (Z.to_N n) ++ lit unit in
  (seconds < 10 → App.formatTimeAgo now date = lit "just now")
  ∧ (10 <= seconds <= 60 →
     App.formatTimeAgo now date = ago seconds " seconds ago")
  ∧ (60 < seconds <= 3600 →
     App.formatTimeAgo now date = ago (seconds / 60) " minutes ago"
     ∧ 1 <= seconds / 60 <= 60)
  ∧ (3600 < seconds <= 86400 →
     App.formatTimeAgo now date = ago (seconds / 3600) " hours ago"
     ∧ 1 <= seconds / 3600 <= 24)
  ∧ (86400 < seconds <= 2592000 →
     App.formatTimeAgo now date = ago (seconds / 86400) " days ago"
     ∧ 1 <= seconds / 86400 <= 30)
  ∧ (2592000 < seconds <= 31536000 →
     App.formatTimeAgo now date = ago (seconds / 2592000) " months ago"
     ∧ 1 <= seconds / 2592000 <= 12)
  ∧ (31536000 < seconds →
     App.formatTimeAgo now date = ago (seconds / 31536000) " years ago"
     ∧ 1 <= seconds / 31536000).
Proof.
  intros seconds ago. subst ago. rewrite formatTimeAgo_seconds.
  fold seconds. generalize seconds. clear seconds. intros seconds.
  repeat match goal with |- _ ∧ _ => split end; intros Hrange;
    repeat match goal with
    | |- context [?a <? ?b] =>
        destruct (Z.ltb_spec a b); try lia
    end;
    try reflexivity; (split; [reflexivity|]);
    Z.div_mod_to_equations; lia.
Qed.

Lemma time_ago_units_witness :
  App.formatTimeAgo 1700003600000 1700000000000 = lit "60 minutes ago"
  ∧ App.formatTimeAgo 1700000000000 1700000005000 = lit "just now".
Proof.
  destruct (time_ago_units 1700003600000 1700000000000)
    as (_ & _ & Hmin & _).
  destruct (time_ago_units 1700000000000 1700000005000) as (Hnow & _).
  split.
  - destruct Hmin as [E _]; [vm_compute; split; congruence|].
    rewrite E. reflexivity.
  - apply Hnow. vm_compute. reflexivity.
Defined.

(** ** The date and time strings of an entry *)

Section Calendar.

Ltac div_mod_lia := Z.div_mod_to_equations; lia.

(** The first 400-year cycle, from 0000-03-01 on, day by day. *)
Lemma civilAgrees_first_cycle (day : Z) :
  -719468 <= day < -719468 + 146097 → civilAgrees day = true.
Proof.
  apply (allDays_spec (-719468) 146097 civilAgrees).
  vm_compute. reflexivity.
Qed.

(** Both calendar functions repeat every 400 years, 146097 days. *)
Lemma CivilFromDay_cycle (day k : Z) :
  CivilFromDay (day + 146097 * k) =
    let '(y, m, d) := CivilFromDay day in (y + 400 * k, m, d).
Proof.
  unfold CivilFromDay. cbv zeta.
  replace (day + 146097 * k + 719468) with (day + 719468 + k * 146097)
    by lia.
  rewrite Z.div_add by lia.
  set (era := (day + 719468) / 146097).
  replace (day + 719468 + k * 146097 - (era + k) * 146097)
    with (day + 719468 - era * 146097) by lia.
  set (doe := day + 719468 - era * 146097).
  set (yoe := (doe - doe / 1460 + doe / 36524 - doe / 146096) / 365).
  set (doy := doe - (365 * yoe + yoe / 4 - yoe / 100)).
  set (mp := (5 * doy + 2) / 153).
  cbv beta iota.
  destruct ((if mp <? 10 then mp + 3 else mp - 9) <=? 2);
    f_equal; f_equal; lia.
Qed.

Lemma MakeDay_cycle (y m d k : Z) :
  MakeDay (y + 400 * k) m d = MakeDay y m d + 146097 * k.
Proof.
  assert (H : ∀ x,
    let era := (x + k * 400) / 400 in
    let yoe := x + k * 400 - era * 400 in
    era = x / 400 + k ∧ yoe = x - x / 400 * 400).
  { intros x. cbv zeta. rewrite Z.div_add by lia. lia. }
  unfold MakeDay. cbv zeta.
  destruct (m <=? 2).
  - replace (y + 400 * k - 1) with (y - 1 + k * 400) by lia.
    destruct (H (y - 1)) as [-> ->]. lia.
  - replace (y + 400 * k) with (y + k * 400) by lia.
    destruct (H y) as [-> ->]. lia.
Qed.

Lemma DaysInMonth_cycle (y m k : Z) :
  DaysInMonth (y + 400 * k) m = DaysInMonth y m.
Proof.
  unfold DaysInMonth, InLeapYear.
  replace ((y + 400 * k) mod 4) with (y mod 4) by div_mod_lia.
  replace ((y + 400 * k) mod 100) with (y mod 100) by div_mod_lia.
  replace ((y + 400 * k) mod 400) with (y mod 400) by div_mod_lia.
  reflexivity.
Qed.

(** The civil date of any day number is a date of the calendar whose day
    number it is. *)
Lemma civilAgrees_all (day : Z) : civilAgrees day = true.
Proof.
  set (k := (day + 719468) / 146097).
  set (day0 := day - 146097 * k).
  assert (Hrange : -719468 <= day0 < -719468 + 146097)
    by (subst day0 k; div_mod_lia).
  pose proof (civilAgrees_first_cycle day0 Hrange) as H0.
  replace day with (day0 + 146097 * k) by (subst day0; lia).
  unfold civilAgrees in *. rewrite CivilFromDay_cycle.
  destruct (CivilFromDay day0) as [[y m] d].
  rewrite MakeDay_cycle, DaysInMonth_cycle.
  rewrite !andb_true_iff in *. rewrite Z.eqb_eq in *. lia.
Qed.

Lemma civil_of_day (day y m d : Z) :
  CivilFromDay day = (y, m, d) →
  MakeDay y m d = day ∧ 1 <= m <= 12 ∧ 1 <= d <= DaysInMonth y m.
Proof.
  intros E. pose proof (civilAgrees_all day) as H.
  unfold civilAgrees in H. rewrite E in H.
  rewrite !andb_true_iff, Z.eqb_eq, !Z.leb_le in H. lia.
Qed.

Lemma DaysInMonth_le (y m : Z) : DaysInMonth y m <= 31.
Proof. unfold DaysInMonth. repeat case_match; lia. Qed.

(** The days of the years 0 to 9999 have a year from 0 to 9999. *)
Lemma civil_year_range (day y m d : Z) :
  -719528 <= day <= 2932896 → CivilFromDay day = (y, m, d) →
  0 <= y <= 9999.
Proof.
  intros Hday E. destruct (civil_of_day day y m d E) as (HM & Hm & Hd).
  pose proof (DaysInMonth_le y m) as H31.
  revert HM. unfold MakeDay.
  destruct (Z.leb_spec m 2); intros HM; div_mod_lia.
Qed.

End Calendar.

Section DateStrings.

Import LogEntryForm.

Lemma padReads_year (y : Z) : 0 <= y <= 9999 → padReads 4 y = true.
Proof.
  intros H. apply (allDays_spec 0 10000 (padReads 4)); [|lia].
  vm_compute. reflexivity.
Qed.

Lemma padReads_two (n : Z) : 0 <= n <= 99 → padReads 2 n = true.
Proof.
  intros H. apply (allDays_spec 0 100 (padReads 2)); [|lia].
  vm_compute. reflexivity.
Qed.

Lemma timeReads_all (h m : Z) :
  0 <= h < 24 → 0 <= m < 60 → timeReads h m = true.
Proof.
  intros Hh Hm.
  pose proof (allDays_spec 0 1440
                (fun k => timeReads (k / 60) (k mod 60))) as H.
  specialize (H ltac:(vm_compute; reflexivity) (h * 60 + m)).
  cbv beta in H.
  replace ((h * 60 + m) / 60) with h in H
    by (Z.div_mod_to_equations; lia).
  replace ((h * 60 + m) mod 60) with m in H
    by (Z.div_mod_to_equations; lia).
  apply H. lia.
Qed.

Lemma padReads_inv (w : nat) (n : Z) :
  padReads w n = true →
  List.length (pad w n) = w ∧ digitsValue 0 (pad w n) = Some n.
Proof.
  unfold padReads. rewrite andb_true_iff.
  intros [H1 H2]. split; by eapply bool_decide_eq_true_1.
Qed.

Lemma digitsValue_digits (acc : Z) (v : jsstring) (n : Z) :
  digitsValue acc v = Some n → forallb isDigit v = true.
Proof.
  revert acc. induction v as [|c v IH]; intros acc; simpl; [done|].
  destruct (isDigit c); [|done]. simpl. apply IH.
Qed.

Lemma isDigit_not (sep : N) (c : N) :
  (sep <? 48)%N || (57 <? sep)%N = true →
  isDigit c = true → (c =? sep)%N = false.
Proof.
  unfold isDigit. rewrite orb_true_iff, andb_true_iff, !N.ltb_lt, !N.leb_le.
  intros Hsep Hc. apply N.eqb_neq. lia.
Qed.

(** The first piece of a split is what precedes the first separator. *)
Lemma split_first (sep : N) (a r : jsstring) :
  forallb (fun c => negb (c =? sep)%N) a = true →
  hd [] (split sep (a ++ sep :: r)) = a.
Proof.
  unfold split. induction a as [|c a IH]; simpl.
  - intros _. rewrite N.eqb_refl. by destruct (splitOn sep r).
  - intros [Hc Ha]%andb_true_iff. apply negb_true_iff in Hc.
    rewrite Hc. specialize (IH Ha).
    destruct (splitOn sep (a ++ sep :: r)). simpl in *. by rewrite IH.
Qed.

(** The date part of the years 0 to 9999: ten code units, digits and two
    hyphens, that [new Date] reads back as midnight UTC of the day. *)
Lemma isoDate_reads (day : Z) :
  -719528 <= day <= 2932896 →
  newDate (isoDate day) = TimeValue (MakeDate day 0)
  ∧ forallb (fun c => negb (c =? 84)%N) (isoDate day) = true
  ∧ isoDate day ≠ [].
Proof.
  intros Hday. unfold isoDate.
  destruct (CivilFromDay day) as [[y m] d] eqn:E.
  destruct (civil_of_day day y m d E) as (HM & Hm & Hd).
  pose proof (civil_year_range day y m d Hday E) as Hy.
  pose proof (DaysInMonth_le y m) as H31.
  unfold isoYear.
  replace ((0 <=? y) && (y <=? 9999)) with true
    by (symmetry; apply andb_true_iff; split; apply Z.leb_le; lia).
  destruct (padReads_inv 4 y (padReads_year y Hy)) as [Ly Vy].
  destruct (padReads_inv 2 m (padReads_two m ltac:(lia))) as [Lm Vm].
  destruct (padReads_inv 2 d (padReads_two d ltac:(lia))) as [Ld Vd].
  destruct (pad 4 y) as [|y1 [|y2 [|y3 [|y4 [|? ?]]]]]; try discriminate Ly.
  destruct (pad 2 m) as [|m1 [|m2 [|? ?]]]; try discriminate Lm.
  destruct (pad 2 d) as [|d1 [|d2 [|? ?]]]; try discriminate Ld.
  pose proof (digitsValue_digits _ _ _ Vy) as Dy.
  pose proof (digitsValue_digits _ _ _ Vm) as Dm.
  pose proof (digitsValue_digits _ _ _ Vd) as Dd.
  split; [|split; [|done]].
  - change (newDate ([y1; y2; y3; y4] ++ lit "-" ++ [m1; m2] ++ lit "-"
                     ++ [d1; d2]))
      with (match digitsValue 0 [y1; y2; y3; y4],
                  digitsValue 0 [m1; m2], digitsValue 0 [d1; d2] with
            | Some y, Some m, Some d =>
                if (1 <=? m) && (m <=? 12) && (1 <=? d)
                   && (d <=? DaysInMonth y m)
                then TimeClip (MakeDate (MakeDay y m d) 0)
                else InvalidDate
            | _, _, _ => InvalidDate
            end).
    rewrite Vy, Vm, Vd.
    replace ((1 <=? m) && (m <=? 12) && (1 <=? d) && (d <=? DaysInMonth y m))
      with true
      by (symmetry; rewrite !andb_true_iff, !Z.leb_le; lia).
    rewrite HM. apply TimeClip_ok. unfold MakeDate, msPerDay. lia.
  - cbn [forallb] in Dy, Dm, Dd.
    repeat match goal with
    | H : _ && _ = true |- _ => apply andb_true_iff in H as [? ?]
    end.
    change (([y1; y2; y3; y4] ++ lit "-" ++ [m1; m2] ++ lit "-"
             ++ [d1; d2]))
      with [y1; y2; y3; y4; 45%N; m1; m2; 45%N; d1; d2].
    simpl. rewrite !(isDigit_not 84) by done. reflexivity.
Qed.

Lemma toISOString_isoDate (t : Z) :
  ∃ r, toISOString t = isoDate (Day t) ++ 84%N :: r.
Proof.
  unfold toISOString, isoDate.
  destruct (CivilFromDay (Day t)) as [[y m] d].
  eexists. rewrite <- !app_assoc. reflexivity.
Qed.

Lemma formatDateForInput_isoDate (t : Z) :
  -719528 <= Day t <= 2932896 → formatDateForInput t = isoDate (Day t).
Proof.
  intros Hday. destruct (isoDate_reads (Day t) Hday) as (_ & HT & _).
  unfold formatDateForInput.
  destruct (toISOString_isoDate t) as [r ->].
  by apply split_first.
Qed.

End DateStrings.

Section Reseed.

Import LogEntryForm.

Lemma init_strings (tza : Z) (e : LogEntry.t) :
  editDate (init tza (Some e)) = formatDateForInput (LogEntry.timestamp e)
  ∧ editTime (init tza (Some e))
    = formatTimeForInput tza (LogEntry.timestamp e).
Proof. destruct e as [? ? [] ? ? ? ? ?]; split; reflexivity. Qed.

Lemma formatTimeForInput_reads (tza t : Z) :
  Number <$> split 58 (formatTimeForInput tza t)
  = [Some (getHours tza t); Some (getMinutes tza t)].
Proof.
  destruct (field_bounds (LocalTime tza t)) as (Hh & Hm & _).
  pose proof (timeReads_all (getHours tza t) (getMinutes tza t) Hh Hm) as H.
  by apply bool_decide_eq_true_1 in H.
Qed.

Lemma years_0_to_9999 (t : Z) :
  MakeDate (MakeDay 0 1 1) 0 <= t < MakeDate (MakeDay 10000 1 1) 0 →
  -719528 <= Day t <= 2932896.
Proof.
  change (MakeDate (MakeDay 0 1 1) 0) with (-62167219200000).
  change (MakeDate (MakeDay 10000 1 1) 0) with 253402300800000.
  unfold Day, msPerDay. intros H. Z.div_mod_to_equations. lia.
Qed.

End Reseed.

(** X16: the time string the form is seeded with reads back, through
    [split(':').map(Number)], as the local hour and minute of the entry, in
    every time zone and for every instant. *)
Theorem time_string_round_trip (tza t : Z) :
  Number <$> split 58 (LogEntryForm.formatTimeForInput tza t)
  = [Some (getHours tza t); Some (getMinutes tza t)]
  ∧ 0 <= getHours tza t < 24 ∧ 0 <= getMinutes tza t < 60.
Proof.
  destruct (field_bounds (LocalTime tza t)) as (Hh & Hm & _).
  split; [apply formatTimeForInput_reads | by split].
Qed.

(** X17: for an instant of the years 0 to 9999, the date string the form is
    seeded with reads back, through [new Date], as midnight UTC of the
    instant's UTC day; it is the UTC date, not the local one. *)
Theorem date_string_round_trip (t : Z) :
  MakeDate (MakeDay 0 1 1) 0 <= t < MakeDate (MakeDay 10000 1 1) 0 →
  newDate (LogEntryForm.formatDateForInput t) = TimeValue (MakeDate (Day t) 0)
  ∧ LogEntryForm.formatDateForInput t = isoDate (Day t)
  ∧ List.length (LogEntryForm.formatDateForInput t) = 10%nat.
Proof.
  intros Ht. pose proof (years_0_to_9999 t Ht) as Hday.
  rewrite (formatDateForInput_isoDate t Hday).
  destruct (isoDate_reads (Day t) Hday) as (Hnew & _ & _).
  split; [exact Hnew|]. split; [reflexivity|].
  unfold newDate in Hnew.
  destruct (isoDate (Day t))
    as [|? [|? [|? [|? [|? [|? [|? [|? [|? [|? [|? ?]]]]]]]]]]];
    try discriminate Hnew. reflexivity.
Qed.

Lemma date_string_round_trip_witness :
  MakeDate (MakeDay 0 1 1) 0 <= 1673796625500
    < MakeDate (MakeDay 10000 1 1) 0
  ∧ newDate (LogEntryForm.formatDateForInput 1673796625500)
    = TimeValue 1673740800000.
Proof.
  assert (H : MakeDate (MakeDay 0 1 1) 0 <= 1673796625500
              < MakeDate (MakeDay 10000 1 1) 0)
    by (vm_compute; split; congruence).
  split; [exact H|].
  exact (proj1 (date_string_round_trip 1673796625500 H)).
Defined.

(** X18: in a time zone whose offset [tza] from UTC is the same at every
    instant (a zone without daylight saving or other offset changes),
    reopening an entry of the years 0 to 9999 and saving it unchanged
    submits the entry's timestamp moved back by zero or one day: by as many
    days as the local date of the instant is ahead of the local date of
    midnight UTC of its UTC date.  At Greenwich the timestamp comes back
    unchanged; at or east of Greenwich it does whenever the local date is
    the UTC date; west of Greenwich an entry whose local date is its UTC
    date comes back one day earlier. *)
Theorem reopen_submit_timestamp (tza : Z) (e : LogEntry.t) :
  let t := LogEntry.timestamp e in
  let k :=
    Day (LocalTime tza t) - Day (LocalTime tza (MakeDate (Day t) 0)) in
  -msPerDay < tza < msPerDay →
  MakeDate (MakeDay 0 1 1) 0 <= t < MakeDate (MakeDay 10000 1 1) 0 →
  LogEntryData.timestamp
    (LogEntryForm.payload tza (Some e) (LogEntryForm.init tza (Some e)))
  = Some (TimeValue (t - k * msPerDay))
  ∧ 0 <= k <= 1
  ∧ (tza = 0 → k = 0)
  ∧ (0 <= tza → Day (LocalTime tza t) = Day t → k = 0)
  ∧ (tza < 0 → Day (LocalTime tza t) = Day t → k = 1).
Proof.
  intros t k Htza Ht. pose proof (years_0_to_9999 t Ht) as Hday.
  split.
  - rewrite payload_timestamp.
    destruct (init_strings tza e) as [-> ->]. fold t.
    destruct (isoDate_reads (Day t) Hday) as (Hnew & _ & Hne).
    rewrite <- (formatDateForInput_isoDate t Hday) in Hnew, Hne.
    pose proof (formatTimeForInput_reads tza t) as Htime.
    destruct (field_bounds (LocalTime tza t)) as (Hh & Hm & _).
    apply truthy_iff in Hne. rewrite Hne.
    assert (Hne' : truthy (LogEntryForm.formatTimeForInput tza t) = true).
    { destruct (LogEntryForm.formatTimeForInput tza t); [discriminate|done]. }
    rewrite Hne'. simpl.
    rewrite (newTimestamp_local tza _ _ t (Day t) (getHours tza t)
               (getMinutes tza t) []) by done.
    do 2 f_equal. subst k.
    pose proof (decompose_time (LocalTime tza t)) as Hdec.
    unfold getHours, getMinutes, getSeconds, getMilliseconds.
    revert Hdec. unfold UTC, LocalTime, MakeDate. lia.
  - subst k. revert Htza. unfold Day, LocalTime, MakeDate, msPerDay.
    intros Htza.
    repeat match goal with |- _ ∧ _ => split end; intros;
      Z.div_mod_to_equations; lia.
Qed.

Lemma reopen_submit_timestamp_witness :
  let tza := -5 * msPerHour in
  let e :=
    LogEntry.mk (lit "editThisOne") 1673796625500 Meal None None None None
      None in
  LogEntryData.timestamp
    (LogEntryForm.payload tza (Some e) (LogEntryForm.init tza (Some e)))
  = Some (TimeValue (1673796625500 - msPerDay)).
Proof.
  intros tza e.
  destruct (reopen_submit_timestamp tza e) as (E & _).
  - vm_compute. split; reflexivity.
  - vm_compute. split; congruence.
  - rewrite E. reflexivity.
Defined.

(** ** Starting over *)

(** X19: the effect that follows a change of the entry being edited
    overwrites every cell of the form: the state it leaves does not depend
    on the state it finds, so nothing entered for one entry shows up in the
    next, and after a cancel the form is in its initial state. *)
Theorem reset_effect_overwrites
    (tza : Z) (editingEntry : option LogEntry.t)
    (s s' : LogEntryForm.State) :
  LogEntryForm.resetEffect tza editingEntry s
  = LogEntryForm.resetEffect tza editingEntry s'
  ∧ LogEntryForm.resetEffect tza None s = LogEntryForm.initialState.
Proof.
  destruct editingEntry as [[? ? [] ? ? ? ? ?]|], s, s'; split; reflexivity.
Qed.

Section DeleteOne.

Lemma filter_all (P : LogEntry.t → Prop) `{!∀ e, Decision (P e)}
    (l : list LogEntry.t) :
  (∀ x, x ∈ l → P x) → filter P l = l.
Proof.
  induction l as [|a l IH]; intros Hall; [done|].
  rewrite filter_cons_True by (apply Hall; by left).
  f_equal. apply IH. intros x Hx. apply Hall. by right.
Qed.

Lemma filter_other_ids (l : list LogEntry.t) (i : nat) (e : LogEntry.t) :
  NoDup (LogEntry.id <$> l) → l !! i = Some e →
  filter (fun entry => LogEntry.id entry ≠ LogEntry.id e) l = delete i l.
Proof.
  revert i. induction l as [|a l IH]; intros i Hnd Hi; [done|].
  simpl in Hnd. apply NoDup_cons in Hnd as [Ha Hnd].
  destruct i as [|i]; simpl in *.
  - injection Hi as ->.
    rewrite filter_cons_False by (intros Hne; by apply Hne).
    apply filter_all. intros x Hx Heq. apply Ha. rewrite <- Heq.
    by apply list_elem_of_fmap_2.
  - rewrite filter_cons_True.
    + f_equal. by apply IH.
    + intros Heq. apply Ha. rewrite Heq.
      apply list_elem_of_fmap_2. by eapply list_elem_of_lookup_2.
Qed.

End DeleteOne.

(** X20: when the ids of the list are distinct, as the ids the backend
    assigns are, a confirmed deletion of the entry at some position removes
    that entry and no other. *)
Theorem delete_removes_one_entry
    (s : App.State) (i : nat) (e : LogEntry.t) :
  NoDup (LogEntry.id <$> App.logEntries s) →
  App.logEntries s !! i = Some e →
  App.logEntries (App.handleDeleteEntry App.Fulfilled (LogEntry.id e) s)
  = delete i (App.logEntries s).
Proof.
  intros Hnd Hi. rewrite <- (filter_other_ids _ i e Hnd Hi).
  destruct s as [l [ed|] b er]; unfold App.handleDeleteEntry; simpl;
    [destruct (bool_decide (LogEntry.id ed = LogEntry.id e))|]; reflexivity.
Qed.

Lemma delete_removes_one_entry_witness :
  let a := LogEntry.mk (lit "1") 200 Meal None None None None None in
  let b := LogEntry.mk (lit "deleteMe") 100 Bathroom (Some Pee) None None
             None None in
  let s := App.mkState [a; b] None false None in
  NoDup (LogEntry.id <$> App.logEntries s)
  ∧ App.logEntries
      (App.handleDeleteEntry App.Fulfilled (lit "deleteMe") s) = [a].
Proof.
  intros a b s.
  assert (Hnd : NoDup (LogEntry.id <$> App.logEntries s)).
  { apply (bool_decide_unpack _). vm_compute. exact I. }
  split; [exact Hnd|].
  exact (delete_removes_one_entry s 1 b Hnd eq_refl).
Defined.
